(** * Listic Fundraiser: the M-Pesa STK push backend (server.js)

    A shallow embedding of the three Express route handlers of
    [server.js] and of the process-wide [paymentStore] they share:

    - [stk_push]        POST /api/stk-push        (the Request Initiator)
    - [mpesa_callback]  POST /api/mpesa/callback  (the Result Reconciler)
    - [stk_status]      GET  /api/stk-status      (the Status Reader)

    Request bodies are whatever [express.json()] parsed, so they are
    modelled as untyped JavaScript values and the coercions the handlers
    rely on (truthiness, strict equality, property keys, [Math.ceil]) are
    written out. *)

From Stdlib Require Import QArith Qround.
From stdpp Require Import gmap strings list pretty.

#[local] Set Warnings "-register-all".

Local Open Scope string_scope.

(** ** JavaScript values *)

(** A finite double is a rational number, and [Math.ceil] and [===] are
    exact on doubles, so finite numbers are carried as [Q]; the sign of
    zero is not kept ([-0 === 0], and [JSON.stringify(-0)] is ["0"]). *)
Inductive number : Type :=
  | Fin (q : Q)
  | NaN
  | PosInfinity
  | NegInfinity.

(** What [JSON.parse] produces, plus [undefined]. An object is the list
    of its own properties; the first binding of a name is the property. *)
Inductive value : Type :=
  | JUndef
  | JNull
  | JBool (b : bool)
  | JNum (n : number)
  | JStr (s : string)
  | JArr (items : list value)
  | JObj (props : list (string * value)).

(** A value read out of an object that inherits from [Object.prototype]
    may also be one of the built-in members of that prototype. *)
Inductive jsval : Type :=
  | Data (v : value)
  | Builtin (name : string).

(** An [Error] object: what [throw] sites of the engine and of axios
    raise. [err_response] is [err.response] ([undefined] when the error
    did not come with an HTTP response). *)
Record error : Type := mkError {
  err_response : value;
  err_message : string
}.

Definition TypeError (msg : string) : error :=
  {| err_response := JUndef; err_message := msg |}.

(** ** Completions: normal or abrupt (thrown) *)

Inductive completion (A : Type) : Type :=
  | Normal (a : A)
  | Throw (e : error).
Arguments Normal {A} a.
Arguments Throw {A} e.

(** Sequencing stops at the first throw; [x ← c; k] is stdpp's notation
    for it. *)
#[export] Instance completion_bind : MBind completion := λ A B k c,
  match c with
  | Normal a => k a
  | Throw e => Throw e
  end.

(** ** Property access on parsed values *)

Fixpoint get_own (props : list (string * value)) (k : string) : option value :=
  match props with
  | [] => None
  | (k', v) :: rest => if String.eqb k' k then Some v else get_own rest k
  end.

Definition has_own (props : list (string * value)) (k : string) : bool :=
  match get_own props k with Some _ => true | None => false end.

(** [v.k] for the property names the handlers read off request data
    ([Body], [stkCallback], [CheckoutRequestID], [ResultCode],
    [ResultDesc], [CallbackMetadata], [Item], [Name], [Value], [phone],
    [amount], [description], [access_token], [data], [errorMessage]):
    none of them is defined on a built-in prototype, so the result is the
    own property or [undefined]. Reading off [undefined] or [null]
    throws. *)
Definition get (v : value) (k : string) : completion value :=
  match v with
  | JUndef | JNull =>
      Throw (TypeError ("Cannot read properties of undefined or null (reading '" ++ k ++ "')"))
  | JObj props => Normal (default JUndef (get_own props k))
  | _ => Normal JUndef
  end.

(** [v?.k] *)
Definition get_opt (v : value) (k : string) : value :=
  match v with
  | JObj props => default JUndef (get_own props k)
  | _ => JUndef
  end.

(** ** Coercions *)

Definition number_truthy (n : number) : bool :=
  match n with
  | Fin q => negb (Qeq_bool q 0)
  | NaN => false
  | PosInfinity | NegInfinity => true
  end.

(** [ToBoolean] *)
Definition truthy (v : value) : bool :=
  match v with
  | JUndef | JNull => false
  | JBool b => b
  | JNum n => number_truthy n
  | JStr s => negb (String.eqb s "")
  | JArr _ | JObj _ => true
  end.

Definition jsval_truthy (x : jsval) : bool :=
  match x with
  | Data v => truthy v
  | Builtin _ => true
  end.

(** [v === z] for an integer literal [z] *)
Definition strict_eq_int (v : value) (z : Z) : bool :=
  match v with
  | JNum (Fin q) => Qeq_bool q (inject_Z z)
  | _ => false
  end.

(** [a || b] *)
Definition or_else (a b : value) : value := if truthy a then a else b.

(** [Math.ceil] on a number *)
Definition ceil (n : number) : number :=
  match n with
  | Fin q => Fin (inject_Z (Qceiling q))
  | other => other
  end.

(** ** Plain objects used as maps *)

(** The properties of [Object.prototype] (with the Annex B ones that
    Node defines): eleven functions and the [__proto__] accessor. *)
Definition object_prototype_functions : list string :=
  [ "constructor"; "hasOwnProperty"; "isPrototypeOf"; "propertyIsEnumerable";
    "toLocaleString"; "toString"; "valueOf";
    "__defineGetter__"; "__defineSetter__"; "__lookupGetter__"; "__lookupSetter__" ].

Definition is_object_prototype_function (k : string) : bool :=
  existsb (String.eqb k) object_prototype_functions.

(** An object literal written by a handler: its properties in order. *)
Abbreviation record := (list (string * value)).

(** [paymentStore]: a plain object. Its own properties are the records
    the handlers assigned; its prototype is [Object.prototype] ([None])
    until an assignment to the key [__proto__] replaces it by the record
    assigned (whose own prototype is [Object.prototype]). *)
Record store : Type := mkStore {
  own : gmap string record;
  proto : option record
}.

(** [const paymentStore = {}] *)
Definition empty_store : store := {| own := ∅; proto := None |}.

(** What the lookup finds on [Object.prototype], the end of the chain:
    the [__proto__] getter answers the prototype of the store itself. *)
Definition object_prototype_get (s : store) (k : string) : jsval :=
  if String.eqb k "__proto__" then
    match proto s with
    | Some r => Data (JObj r)
    | None => Builtin "Object.prototype"
    end
  else if is_object_prototype_function k then Builtin ("Object.prototype." ++ k)
  else Data JUndef.

(** [paymentStore[k]]: own property, then the prototype chain. *)
Definition store_get (s : store) (k : string) : jsval :=
  match own s !! k with
  | Some r => Data (JObj r)
  | None =>
      match proto s with
      | Some p =>
          match get_own p k with
          | Some v => Data v
          | None => object_prototype_get s k
          end
      | None => object_prototype_get s k
      end
  end.

(** Whether an assignment to [k] reaches the [__proto__] setter of
    [Object.prototype]: the key is [__proto__] and no data property of
    that name sits in front of it. *)
Definition reaches_proto_setter (s : store) (k : string) : bool :=
  String.eqb k "__proto__"
  && negb (bool_decide (is_Some (own s !! k)))
  && negb (match proto s with Some p => has_own p k | None => false end).

(** [paymentStore[k] = r] for an object [r]: every key but [__proto__]
    creates or overwrites an own property; [__proto__] makes [r] the
    prototype of the store. *)
Definition store_set (s : store) (k : string) (r : record) : store :=
  if reaches_proto_setter s k
  then {| own := own s; proto := Some r |}
  else {| own := <[k := r]> (own s); proto := proto s |}.

(** The record held under an identifier: the one last assigned to it,
    as an own property or, for [__proto__], as the prototype. *)
Definition stored (s : store) (k : string) : option record :=
  match own s !! k with
  | Some r => Some r
  | None => if String.eqb k "__proto__" then proto s else None
  end.

(** The [meta] object of the callback handler. Its values are request
    data, so an assignment to [__proto__] may install a parsed object or
    array as prototype, drop the prototype ([null]) or do nothing (a
    primitive). *)
Inductive meta_proto : Type :=
  | ProtoObjectPrototype
  | ProtoNull
  | ProtoValue (v : value).

Record meta_object : Type := mkMeta {
  meta_own : gmap string value;
  meta_chain : meta_proto
}.

(** [const meta = {}] *)
Definition empty_meta : meta_object :=
  {| meta_own := ∅; meta_chain := ProtoObjectPrototype |}.

Definition meta_reaches_proto_setter (m : meta_object) (k : string) : bool :=
  String.eqb k "__proto__"
  && negb (bool_decide (is_Some (meta_own m !! k)))
  && match meta_chain m with
     | ProtoObjectPrototype => true
     | ProtoNull => false
     | ProtoValue (JObj props) => negb (has_own props k)
     | ProtoValue _ => true
     end.

(** [meta[k] = v] *)
Definition meta_set (m : meta_object) (k : string) (v : value) : meta_object :=
  if meta_reaches_proto_setter m k then
    match v with
    | JObj _ | JArr _ => {| meta_own := meta_own m; meta_chain := ProtoValue v |}
    | JNull => {| meta_own := meta_own m; meta_chain := ProtoNull |}
    | _ => m
    end
  else {| meta_own := <[k := v]> (meta_own m); meta_chain := meta_chain m |}.

(** [meta.k] for the four names the handler reads ([Amount],
    [MpesaReceiptNumber], [PhoneNumber], [TransactionDate]), which no
    built-in prototype defines: the own property, else the property of a
    parsed object installed as prototype, else [undefined]. *)
Definition meta_get (m : meta_object) (k : string) : value :=
  match meta_own m !! k with
  | Some v => v
  | None =>
      match meta_chain m with
      | ProtoValue (JObj props) => default JUndef (get_own props k)
      | _ => JUndef
      end
  end.

(** ** Requests, responses and the outside world *)

Record request : Type := mkRequest {
  req_body : value;                     (* req.body, as parsed  *)
  req_query : list (string * value)     (* req.query, an object *)
}.

Record response : Type := mkResponse {
  res_status : Z;
  res_body : jsval
}.

(** [res.json(x)] and [res.status(c).json(x)] *)
Definition res_json (x : jsval) : response := {| res_status := 200; res_body := x |}.
Definition res_status_json (c : Z) (x : value) : response :=
  {| res_status := c; res_body := Data x |}.

(** The calls a handler places on the payment gateway. *)
Inductive call : Type :=
  | OAuthRequest
  | StkPushRequest (payload : value) (authorization : string).

(** Everything [stk_push] obtains from outside the process: the
    configuration of [process.env], the clock and [Buffer]'s base64
    encoding, and the answers of the gateway (the parsed response body,
    or the error axios rejects with). *)
Record environment : Type := mkEnvironment {
  SHORTCODE : option string;
  PASSKEY : option string;
  CALLBACK_URL : option string;
  clock_digits : string;
  base64 : string → string;
  oauth_get : completion value;
  stkpush_post : value → string → completion value
}.

(** An environment variable as a value, and inside a template literal. *)
Definition env_value (x : option string) : value :=
  match x with Some s => JStr s | None => JUndef end.
Definition env_text (x : option string) : string := default "undefined" x.

(** What a handler leaves behind: the response sent (or the exception
    that escaped the handler), the store, and the gateway calls made. *)
Record outcome : Type := mkOutcome {
  result : completion response;
  store_after : store;
  calls : list call
}.

Section Runtime.

(** The two number/string conversions of the language that the model
    leaves to the engine: [Number::toString] (the shortest decimal that
    round-trips) and [StringToNumber] (numeric string literals). *)
Variable Number_toString : number → string.
Variable StringToNumber : string → number.

(** [ToString]. A parsed object has no callable property of its own, so
    one that carries its own [toString] cannot be converted
    ([OrdinaryToPrimitive] finds no usable method); any other is
    ["[object Object]"]. An array is joined with commas, [null] and
    [undefined] elements printing as the empty string. *)
Fixpoint ToString (v : value) : completion string :=
  match v with
  | JUndef => Normal "undefined"
  | JNull => Normal "null"
  | JBool true => Normal "true"
  | JBool false => Normal "false"
  | JNum n => Normal (Number_toString n)
  | JStr s => Normal s
  | JArr items =>
      let element (x : value) : completion string :=
        match x with
        | JUndef | JNull => Normal ""
        | _ => ToString x
        end in
      (fix join (xs : list value) : completion string :=
         match xs with
         | [] => Normal ""
         | [x] => element x
         | x :: rest =>
             s ← element x;
             t ← join rest;
             Normal (s ++ "," ++ t)
         end) items
  | JObj props =>
      if has_own props "toString"
      then Throw (TypeError "Cannot convert object to primitive value")
      else Normal "[object Object]"
  end.

(** [ToPropertyKey]: the same conversion (no symbols in parsed data). *)
Definition ToPropertyKey (v : value) : completion string := ToString v.

(** [ToNumber] *)
Definition ToNumber (v : value) : completion number :=
  match v with
  | JUndef => Normal NaN
  | JNull => Normal (Fin 0)
  | JBool true => Normal (Fin 1)
  | JBool false => Normal (Fin 0)
  | JNum n => Normal n
  | JStr s => Normal (StringToNumber s)
  | JArr _ | JObj _ =>
      s ← ToString v;
      Normal (StringToNumber s)
  end.

(** [Math.ceil(v)] *)
Definition Math_ceil (v : value) : completion number :=
  n ← ToNumber v;
  Normal (ceil n).

(** ** The handlers *)

Definition responded (r : response) (s : store) (cs : list call) : outcome :=
  {| result := Normal r; store_after := s; calls := cs |}.
Definition threw (e : error) (s : store) (cs : list call) : outcome :=
  {| result := Throw e; store_after := s; calls := cs |}.

(** *** Helpers of the Initiator *)

(** [getAccessToken]: [const { data } = await axios.get(...)] under the
    Basic credentials, then [data.access_token]. *)
Definition getAccessToken (env : environment) : completion value :=
  data ← oauth_get env;
  get data "access_token".

(** [getTimestampAndPassword]: the first fourteen digits of the ISO
    time, and the base64 of shortcode, passkey and timestamp. *)
Definition getTimestampAndPassword (env : environment) : string * string :=
  let timestamp := clock_digits env in
  let password :=
    base64 env (env_text (SHORTCODE env) ++ env_text (PASSKEY env) ++ timestamp) in
  (timestamp, password).

Definition default_description : value :=
  JStr "Dominic Oyagi – Mathare Hospital Fund".

(** The [payload] object literal of [stk_push]. *)
Definition stk_payload (env : environment) (timestamp password : string)
    (Amount : number) (phone description : value) : value :=
  JObj [ ("BusinessShortCode", env_value (SHORTCODE env));
         ("Password", JStr password);
         ("Timestamp", JStr timestamp);
         ("TransactionType", JStr "CustomerBuyGoodsOnline");
         ("Amount", JNum Amount);
         ("PartyA", phone);
         ("PartyB", env_value (SHORTCODE env));
         ("PhoneNumber", phone);
         ("CallBackURL", env_value (CALLBACK_URL env));
         ("AccountReference", JStr "DominicOyagi");
         ("TransactionDesc", or_else description default_description) ].

(** The [try] block of [stk_push] up to the answer of the gateway: the
    token, the payload, the POST. Returns the parsed answer (or what was
    thrown) and the gateway calls placed on the way. *)
Definition submit (env : environment) (phone amount description : value)
    : completion value * list call :=
  match getAccessToken env with
  | Throw e => (Throw e, [OAuthRequest])
  | Normal token =>
      let '(timestamp, password) := getTimestampAndPassword env in
      let prepared :=
        Amount ← Math_ceil amount;
        bearer ← ToString token;
        Normal (stk_payload env timestamp password Amount phone description,
                "Bearer " ++ bearer) in
      match prepared with
      | Throw e => (Throw e, [OAuthRequest])
      | Normal (payload, authorization) =>
          (stkpush_post env payload authorization,
           [OAuthRequest; StkPushRequest payload authorization])
      end
  end.

Definition pending_record : record := [("status", JStr "pending")].

Definition fallback_message : value := JStr "STK push failed. Please try again.".

(** [err?.response?.data?.errorMessage || 'STK push failed. ...'] *)
Definition error_message (err : error) : value :=
  or_else (get_opt (get_opt (err_response err) "data") "errorMessage")
          fallback_message.

(** *** POST /api/stk-push

    The store is touched once, after the last [await], so the handler is
    one step on the store as it is when the gateway has answered. *)
Definition stk_push (env : environment) (req : request) (s : store) : outcome :=
  (* const { phone, amount, description } = req.body; *)
  match get (req_body req) "phone" with
  | Throw e => threw e s []
  | Normal phone =>
      let amount := get_opt (req_body req) "amount" in
      let description := get_opt (req_body req) "description" in
      if negb (truthy phone) || negb (truthy amount) then
        responded
          (res_status_json 400
             (JObj [("errorMessage", JStr "phone and amount are required")]))
          s []
      else
        let '(answer, cs) := submit env phone amount description in
        let registered :=
          data ← answer;
          id ← get data "CheckoutRequestID";
          if truthy id
          then (k ← ToPropertyKey id; Normal (data, Some k))
          else Normal (data, None) in
        match registered with
        | Normal (data, Some k) =>
            responded (res_json (Data data)) (store_set s k pending_record) cs
        | Normal (data, None) =>
            responded (res_json (Data data)) s cs
        | Throw err =>
            (* catch (err) *)
            responded
              (res_status_json 500 (JObj [("errorMessage", error_message err)]))
              s cs
        end
  end.

(** *** POST /api/mpesa/callback *)

(** [{ ResultCode: 0, ResultDesc: 'Accepted' }] *)
Definition acknowledgment : value :=
  JObj [("ResultCode", JNum (Fin 0)); ("ResultDesc", JStr "Accepted")].

(** One turn of the [forEach] callback: [meta[item.Name] = item.Value]. *)
Definition flatten_item (m : meta_object) (item : value) : completion meta_object :=
  name ← get item "Name";
  v ← get item "Value";
  k ← ToPropertyKey name;
  Normal (meta_set m k v).

Fixpoint forEach_flatten (items : list value) (m : meta_object)
    : completion meta_object :=
  match items with
  | [] => Normal m
  | item :: rest =>
      m' ← flatten_item m item;
      forEach_flatten rest m'
  end.

(** [const meta = {}; CallbackMetadata?.Item?.forEach(...)]: nothing to
    do when the metadata or its [Item] is [undefined] or [null]; only an
    array has a [forEach] to call. *)
Definition collect_metadata (CallbackMetadata : value) : completion meta_object :=
  match CallbackMetadata with
  | JUndef | JNull => Normal empty_meta
  | _ =>
      match get_opt CallbackMetadata "Item" with
      | JUndef | JNull => Normal empty_meta
      | JArr items => forEach_flatten items empty_meta
      | _ => Throw (TypeError "CallbackMetadata?.Item?.forEach is not a function")
      end
  end.

Definition success_record (meta : meta_object) : record :=
  [ ("status", JStr "success");
    ("amount", meta_get meta "Amount");
    ("receipt", meta_get meta "MpesaReceiptNumber");
    ("phone", meta_get meta "PhoneNumber");
    ("date", meta_get meta "TransactionDate") ].

Definition failure_record (ResultCode ResultDesc : value) : record :=
  [ ("status", JStr (if strict_eq_int ResultCode 1032 then "cancelled" else "failed"));
    ("message", ResultDesc) ].

Definition mpesa_callback (req : request) (s : store) : outcome :=
  let body := get_opt (get_opt (req_body req) "Body") "stkCallback" in
  if negb (truthy body) then
    (* console.warn(..., JSON.stringify(req.body)) *)
    responded (res_json (Data acknowledgment)) s []
  else
    (* body is truthy, so the destructuring reads own properties *)
    let CheckoutRequestID := get_opt body "CheckoutRequestID" in
    let ResultCode := get_opt body "ResultCode" in
    let ResultDesc := get_opt body "ResultDesc" in
    let CallbackMetadata := get_opt body "CallbackMetadata" in
    (* the template literal of the first console.log *)
    match (_ ← ToString CheckoutRequestID; ToString ResultCode) with
    | Throw e => threw e s []
    | Normal _ =>
        if strict_eq_int ResultCode 0 then
          let written :=
            meta ← collect_metadata CallbackMetadata;
            k ← ToPropertyKey CheckoutRequestID;
            Normal (store_set s k (success_record meta)) in
          match written with
          | Throw e => threw e s []
          | Normal s' => responded (res_json (Data acknowledgment)) s' []
          end
        else
          match ToPropertyKey CheckoutRequestID with
          | Throw e => threw e s []
          | Normal k =>
              let s' := store_set s k (failure_record ResultCode ResultDesc) in
              (* the template literal of the last console.log *)
              match ToString ResultDesc with
              | Throw e => threw e s' []
              | Normal _ => responded (res_json (Data acknowledgment)) s' []
              end
          end
    end.

(** *** GET /api/stk-status *)

Definition stk_status (req : request) (s : store) : outcome :=
  let checkoutId := default JUndef (get_own (req_query req) "checkoutId") in
  if negb (truthy checkoutId) then
    responded (res_status_json 400 (JObj [("error", JStr "checkoutId required")])) s []
  else
    match ToPropertyKey checkoutId with
    | Throw e => threw e s []
    | Normal k =>
        let found := store_get s k in
        let record := if jsval_truthy found then found else Data (JObj pending_record) in
        responded (res_json record) s []
    end.

(** ** Sequences of operations on the store *)

Inductive operation : Type :=
  | Initiate (env : environment) (req : request)
  | Reconcile (req : request)
  | Poll (req : request).

Definition step (o : operation) (s : store) : outcome :=
  match o with
  | Initiate env req => stk_push env req s
  | Reconcile req => mpesa_callback req s
  | Poll req => stk_status req s
  end.

Definition run (ops : list operation) (s : store) : store :=
  foldl (λ acc o, store_after (step o acc)) s ops.

End Runtime.

(** ** Vocabulary of the properties *)

(** The nested result object of a notification: [req.body?.Body?.stkCallback]. *)
Definition stkCallback_of (req : request) : value :=
  get_opt (get_opt (req_body req) "Body") "stkCallback".

(** The metadata items of a result object: none when [CallbackMetadata]
    or its [Item] is absent, the elements of [Item] when it is a list. *)
Definition metadata_items (cb : list (string * value)) : option (list value) :=
  match get_opt (get_opt (JObj cb) "CallbackMetadata") "Item" with
  | JUndef | JNull => Some []
  | JArr items => Some items
  | _ => None
  end.

(** A metadata item is a name/value pair: an object with a string [Name]. *)
Definition item_name (item : value) : option string :=
  match item with
  | JObj props =>
      match get_own props "Name" with
      | Some (JStr n) => Some n
      | _ => None
      end
  | _ => None
  end.

Definition is_item (item : value) : bool :=
  match item_name item with Some _ => true | None => false end.

(** The value the items give to a name: that of the last item so named. *)
Fixpoint item_value (items : list value) (name : string) : option value :=
  match items with
  | [] => None
  | item :: rest =>
      match item_value rest name with
      | Some v => Some v
      | None =>
          match item_name item with
          | Some n => if String.eqb n name then Some (get_opt item "Value") else None
          | None => None
          end
      end
  end.

Definition status_of (r : record) : value := default JUndef (get_own r "status").

Definition is_status (r : record) (st : string) : bool :=
  match status_of r with
  | JStr s => String.eqb s st
  | _ => false
  end.

Definition is_terminal (r : record) : bool :=
  is_status r "success" || is_status r "failed" || is_status r "cancelled".

(** An operation that writes: an initiation or a reconciliation. *)
Definition is_writer (o : operation) : bool :=
  match o with
  | Initiate _ _ | Reconcile _ => true
  | Poll _ => false
  end.

(** The "at most one transition" reading of the lifecycle: once the
    record of an identifier is terminal, no initiation or reconciliation
    changes it. *)
Definition terminal_records_are_final : Prop :=
  ∀ (Number_toString : number → string) (StringToNumber : string → number)
    (ops : list operation) (o : operation) (id : string) (r : record),
    is_writer o = true →
    let s := run Number_toString StringToNumber ops empty_store in
    stored s id = Some r →
    is_terminal r = true →
    stored (store_after (step Number_toString StringToNumber o s)) id = Some r.

(** What one operation does to the record of [id]: it replaces it by [r]
    when the operation writes [r] under [id], and leaves it otherwise. *)
Definition after_write (w : option (string * record)) (s : store) (id : string)
    : option record :=
  match w with
  | Some (k, r) => if String.eqb k id then Some r else stored s id
  | None => stored s id
  end.

(** Token acquisition or submission fails with [err]: [getAccessToken]
    throws it, or the token is obtained, the payload is built and the
    POST is rejected with it. *)
Definition submission_fails (Number_toString : number → string)
    (StringToNumber : string → number) (env : environment)
    (phone amount description : value) (err : error) : Prop :=
  getAccessToken env = Throw err
  ∨ ∃ token Amount bearer,
      getAccessToken env = Normal token
      ∧ Math_ceil Number_toString StringToNumber amount = Normal Amount
      ∧ ToString Number_toString token = Normal bearer
      ∧ let '(timestamp, password) := getTimestampAndPassword env in
        stkpush_post env
          (stk_payload env timestamp password Amount phone description)
          ("Bearer " ++ bearer) = Throw err.

(** ** Data of the closed examples *)

(** The theorems below hold for every [Number_toString] and
    [StringToNumber]. The closed examples fix one pair: numbers print as
    the decimal of their integer part, which is [Number::toString] on the
    integers the examples use, and no example converts a string to a
    number. *)
Definition decimal_toString (n : number) : string :=
  match n with
  | Fin q => pretty (Qfloor q)
  | NaN => "NaN"
  | PosInfinity => "Infinity"
  | NegInfinity => "-Infinity"
  end.

Definition no_numeric_string (_ : string) : number := NaN.

Definition body_of (v : value) : request := {| req_body := v; req_query := [] |}.
Definition query_of (id : string) : request :=
  {| req_body := JUndef; req_query := [("checkoutId", JStr id)] |}.

(** A notification in the gateway's envelope. *)
Definition notification (cb : list (string * value)) : request :=
  body_of (JObj [("Body", JObj [("stkCallback", JObj cb)])]).

Definition paid_items : list value :=
  [ JObj [("Name", JStr "Amount"); ("Value", JNum (Fin 11))];
    JObj [("Name", JStr "MpesaReceiptNumber"); ("Value", JStr "ABC123")] ].

Definition paid_result : list (string * value) :=
  [ ("CheckoutRequestID", JStr "ws_1");
    ("ResultCode", JNum (Fin 0));
    ("ResultDesc", JStr "The service request is processed successfully.");
    ("CallbackMetadata", JObj [("Item", JArr paid_items)]) ].

Definition cancelled_result : list (string * value) :=
  [ ("CheckoutRequestID", JStr "ws_1");
    ("ResultCode", JNum (Fin 1032));
    ("ResultDesc", JStr "Request cancelled by user") ].

Definition bare_result : list (string * value) :=
  [ ("CheckoutRequestID", JStr "ws_1"); ("ResultCode", JNum (Fin 0)) ].

(** A gateway that accepts every push under the identifier [ws_1]. *)
Definition accepting_gateway : environment :=
  {| SHORTCODE := Some "174379"; PASSKEY := Some "passkey";
     CALLBACK_URL := Some "https://example.org/api/mpesa/callback";
     clock_digits := "20240101120000"; base64 := λ s, s;
     oauth_get := Normal (JObj [("access_token", JStr "token")]);
     stkpush_post := λ _ _,
       Normal (JObj [("CheckoutRequestID", JStr "ws_1"); ("ResponseCode", JStr "0")]) |}.

(** The error axios raises on a rejected push that carries an error body. *)
Definition invalid_phone_error : error :=
  {| err_response :=
       JObj [("data", JObj [("errorMessage", JStr "Invalid PhoneNumber")])];
     err_message := "Request failed with status code 400" |}.

(** A gateway that rejects every push with that error. *)
Definition rejecting_gateway : environment :=
  {| SHORTCODE := Some "174379"; PASSKEY := Some "passkey";
     CALLBACK_URL := Some "https://example.org/api/mpesa/callback";
     clock_digits := "20240101120000"; base64 := λ s, s;
     oauth_get := Normal (JObj [("access_token", JStr "token")]);
     stkpush_post := λ _ _, Throw invalid_phone_error |}.

(** The double that the literal [10.4] parses to. *)
Definition ten_point_four : Q := 5854679515581645 # 562949953421312.

Definition push_request (amount : Q) : request :=
  body_of (JObj [("phone", JStr "254700000000"); ("amount", JNum (Fin amount))]).

(** A success field is populated from the items: it is the value of the
    last item of its name; with no such item, and no item assigning the
    prototype, it is [undefined]. *)
Definition populated_from (items : list value) (r : record)
    (field name : string) : Prop :=
  (∀ v, item_value items name = Some v → get_own r field = Some v)
  ∧ (item_value items name = None → item_value items "__proto__" = None →
     get_own r field = Some JUndef).

(** ** Vocabulary of the further properties *)

(** Performing a write, or none. *)
Definition apply_write (w : option (string * record)) (s : store) : store :=
  match w with
  | Some (k, r) => store_set s k r
  | None => s
  end.

(** The write of an operation, read off what it does to the empty
    store: the record it made the prototype, else the one own property
    it created, else nothing. *)
Definition write_of (Number_toString : number → string)
    (StringToNumber : string → number) (o : operation)
    : option (string * record) :=
  let s := store_after (step Number_toString StringToNumber o empty_store) in
  match proto s with
  | Some r => Some ("__proto__", r)
  | None =>
      match map_to_list (own s) with
      | (k, r) :: _ => Some (k, r)
      | [] => None
      end
  end.

(** The record the last operation writing under [id] wrote, if any. *)
Fixpoint last_write (Number_toString : number → string)
    (StringToNumber : string → number) (ops : list operation) (id : string)
    : option record :=
  match ops with
  | [] => None
  | o :: rest =>
      match last_write Number_toString StringToNumber rest id with
      | Some r => Some r
      | None =>
          match write_of Number_toString StringToNumber o with
          | Some (k, r) => if String.eqb k id then Some r else None
          | None => None
          end
      end
  end.

(** A record as the handlers write them: the pending record or a
    terminal one, with no property named [__proto__]. *)
Definition is_handler_record (r : record) : bool :=
  negb (has_own r "__proto__") && (is_status r "pending" || is_terminal r).

(** The gateway accepts the push and answers [data]: the token is
    obtained, the payload is built and the POST resolves. *)
Definition submission_succeeds (Number_toString : number → string)
    (StringToNumber : string → number) (env : environment)
    (phone amount description : value) (data : value) : Prop :=
  ∃ token Amount bearer,
    getAccessToken env = Normal token
    ∧ Math_ceil Number_toString StringToNumber amount = Normal Amount
    ∧ ToString Number_toString token = Normal bearer
    ∧ let '(timestamp, password) := getTimestampAndPassword env in
      stkpush_post env
        (stk_payload env timestamp password Amount phone description)
        ("Bearer " ++ bearer) = Normal data.

(** A poll for the string [id]. *)
Definition polls (req : request) (id : string) : Prop :=
  get_own (req_query req) "checkoutId" = Some (JStr id).

(** *** The timestamp of [getTimestampAndPassword]

    [new Date().toISOString().replace(/[^0-9]/g, '').slice(0, 14)], as a
    function of the ISO string (which is ASCII). *)

Definition is_digit (c : Ascii.ascii) : bool :=
  let n := Ascii.nat_of_ascii c in (48 <=? n)%nat && (n <=? 57)%nat.

(** [.replace(/[^0-9]/g, '')] *)
Fixpoint strip_non_digits (s : string) : string :=
  match s with
  | EmptyString => EmptyString
  | String c rest =>
      if is_digit c then String c (strip_non_digits rest)
      else strip_non_digits rest
  end.

(** [.slice(0, 14)] of the stripped string *)
Definition timestamp_of_iso (iso : string) : string :=
  String.substring 0 14 (strip_non_digits iso).

Fixpoint all_digits (s : string) : bool :=
  match s with
  | EmptyString => true
  | String c rest => is_digit c && all_digits rest
  end.

(** The text of [toISOString] for a four-digit year:
    [YYYY-MM-DDTHH:mm:ss.sssZ]. *)
Definition iso_string (year month day hour minute second millis : string) : string :=
  year ++ "-" ++ month ++ "-" ++ day ++ "T" ++ hour ++ ":" ++ minute ++ ":"
  ++ second ++ "." ++ millis ++ "Z".

Definition is_iso_fields (year month day hour minute second millis : string) : bool :=
  all_digits year && all_digits month && all_digits day && all_digits hour
  && all_digits minute && all_digits second && all_digits millis
  && (String.length year =? 4)%nat && (String.length month =? 2)%nat
  && (String.length day =? 2)%nat && (String.length hour =? 2)%nat
  && (String.length minute =? 2)%nat && (String.length second =? 2)%nat.

(** ** More data of the closed examples *)

(** A notification whose [Item] is an object, not a list. *)
Definition odd_items_result : list (string * value) :=
  [ ("CheckoutRequestID", JStr "ws_1");
    ("ResultCode", JNum (Fin 0));
    ("CallbackMetadata", JObj [("Item", JObj [])]) ].

(** A failure whose description is an object with its own [toString]. *)
Definition odd_description_result : list (string * value) :=
  [ ("CheckoutRequestID", JStr "ws_1");
    ("ResultCode", JNum (Fin 1));
    ("ResultDesc", JObj [("toString", JStr "x")]) ].

(** A failure for the identifier [ws_2]. *)
Definition failed_result_ws_2 : list (string * value) :=
  [ ("CheckoutRequestID", JStr "ws_2");
    ("ResultCode", JNum (Fin 1));
    ("ResultDesc", JStr "Insufficient funds") ].


(** A token endpoint that answers without [access_token]. *)
Definition tokenless_gateway : environment :=
  {| SHORTCODE := Some "174379"; PASSKEY := Some "passkey";
     CALLBACK_URL := Some "https://example.org/api/mpesa/callback";
     clock_digits := "20240101120000"; base64 := λ s, s;
     oauth_get := Normal (JObj [("expires_in", JStr "3599")]);
     stkpush_post := λ _ _, Throw invalid_phone_error |}.

(** A gateway that accepts the push without naming it. *)
Definition anonymous_gateway : environment :=
  {| SHORTCODE := Some "174379"; PASSKEY := Some "passkey";
     CALLBACK_URL := Some "https://example.org/api/mpesa/callback";
     clock_digits := "20240101120000"; base64 := λ s, s;
     oauth_get := Normal (JObj [("access_token", JStr "token")]);
     stkpush_post := λ _ _, Normal (JObj [("ResponseCode", JStr "1")]) |}.

(** * Properties *)

(** ** The store as a map *)

Lemma store_get_set (s : store) (k : string) (r : record) :
  has_own r "__proto__" = false →
  store_get (store_set s k r) k = Data (JObj r).
Proof.
  intros Hr. unfold store_set.
  destruct (reaches_proto_setter s k) eqn:Hreach.
  - unfold reaches_proto_setter in Hreach.
    apply andb_prop in Hreach as [Hreach _].
    apply andb_prop in Hreach as [Hk Hown].
    apply String.eqb_eq in Hk. subst k.
    apply negb_true_iff, bool_decide_eq_false in Hown.
    unfold store_get, object_prototype_get; simpl.
    destruct (own s !! "__proto__") eqn:Hlook.
    + exfalso. apply Hown. eauto.
    + unfold has_own in Hr.
      destruct (get_own r "__proto__"); [discriminate | reflexivity].
  - unfold store_get; simpl. by rewrite lookup_insert_eq.
Qed.

Lemma stored_set_eq (s : store) (k : string) (r : record) :
  stored (store_set s k r) k = Some r.
Proof.
  unfold stored, store_set.
  destruct (reaches_proto_setter s k) eqn:Hreach; simpl.
  - unfold reaches_proto_setter in Hreach.
    apply andb_prop in Hreach as [Hreach _].
    apply andb_prop in Hreach as [Hk Hown].
    apply negb_true_iff, bool_decide_eq_false in Hown.
    rewrite Hk. destruct (own s !! k) eqn:Hlook; [| done].
    exfalso. apply Hown. eauto.
  - by rewrite lookup_insert_eq.
Qed.

Lemma stored_set_ne (s : store) (k k' : string) (r : record) :
  k ≠ k' → stored (store_set s k r) k' = stored s k'.
Proof.
  intros Hne. unfold stored, store_set.
  destruct (reaches_proto_setter s k) eqn:Hreach; simpl.
  - unfold reaches_proto_setter in Hreach.
    apply andb_prop in Hreach as [Hreach _].
    apply andb_prop in Hreach as [Hk _].
    apply String.eqb_eq in Hk. subst k.
    assert (String.eqb k' "__proto__" = false) as ->
      by (apply String.eqb_neq; congruence).
    done.
  - by rewrite lookup_insert_ne.
Qed.

(** What is held under an identifier is what a lookup of it finds. *)
Lemma stored_store_get (s : store) (k : string) (r : record) :
  stored s k = Some r →
  has_own r "__proto__" = false →
  store_get s k = Data (JObj r).
Proof.
  unfold stored, store_get, object_prototype_get, has_own.
  destruct (own s !! k); [congruence |].
  destruct (String.eqb_spec k "__proto__") as [-> | _]; [| done].
  intros -> Hr. by destruct (get_own r "__proto__").
Qed.

Lemma stored_empty (k : string) : stored empty_store k = None.
Proof.
  unfold stored, empty_store; simpl. rewrite lookup_empty.
  by destruct (String.eqb k "__proto__").
Qed.

(** ** The metadata object *)

Lemma meta_set_own (m : meta_object) (k name : string) (v : value) :
  name ≠ "__proto__" →
  meta_own (meta_set m k v) !! name
  = if String.eqb k name then Some v else meta_own m !! name.
Proof.
  intros Hname. unfold meta_set.
  destruct (meta_reaches_proto_setter m k) eqn:Hreach.
  - unfold meta_reaches_proto_setter in Hreach.
    apply andb_prop in Hreach as [Hreach _].
    apply andb_prop in Hreach as [Hk _].
    apply String.eqb_eq in Hk. subst k.
    assert (String.eqb "__proto__" name = false) as ->
      by (apply String.eqb_neq; congruence).
    by destruct v.
  - simpl. destruct (String.eqb_spec k name) as [-> | Hne].
    + by rewrite lookup_insert_eq.
    + by rewrite lookup_insert_ne.
Qed.

Lemma meta_set_chain (m : meta_object) (k : string) (v : value) :
  k ≠ "__proto__" → meta_chain (meta_set m k v) = meta_chain m.
Proof.
  intros Hk. unfold meta_set, meta_reaches_proto_setter.
  apply String.eqb_neq in Hk. by rewrite Hk.
Qed.

Section Properties.

Variable Number_toString : number → string.
Variable StringToNumber : string → number.

(** The loop over well-formed items never throws, and leaves under every
    ordinary name the value of the last item so named. *)
Lemma forEach_flatten_items (items : list value) :
  forallb is_item items = true →
  ∀ m0, ∃ m,
    forEach_flatten Number_toString items m0 = Normal m
    ∧ (∀ name, name ≠ "__proto__" →
         meta_own m !! name
         = match item_value items name with
           | Some v => Some v
           | None => meta_own m0 !! name
           end)
    ∧ (item_value items "__proto__" = None → meta_chain m = meta_chain m0).
Proof.
  induction items as [| item rest IH]; intros Hitems m0.
  - exists m0. by repeat split.
  - simpl in Hitems. apply andb_prop in Hitems as [Hitem Hrest].
    unfold is_item in Hitem.
    destruct (item_name item) as [n |] eqn:Hname; [| discriminate].
    assert (∃ props, item = JObj props ∧ get_own props "Name" = Some (JStr n))
      as (props & -> & HName).
    { unfold item_name in Hname. destruct item; try discriminate.
      exists props. split; [done |].
      destruct (get_own props "Name") as [[] |]; congruence. }
    set (v := default JUndef (get_own props "Value")).
    destruct (IH Hrest (meta_set m0 n v)) as (m & Hrun & Hown & Hchain).
    exists m. split; [| split].
    + simpl. unfold flatten_item. simpl. rewrite HName. simpl. exact Hrun.
    + intros name Hne. rewrite (Hown name Hne). cbn [item_value].
      destruct (item_value rest name); [done |].
      rewrite Hname, meta_set_own by done.
      by destruct (String.eqb n name).
    + cbn [item_value].
      destruct (item_value rest "__proto__") eqn:Hrest'; [done |].
      rewrite Hname. destruct (String.eqb_spec n "__proto__"); [done |].
      intros _. rewrite Hchain by done. by apply meta_set_chain.
Qed.

Lemma meta_get_populated (items : list value) (m : meta_object) (name : string) :
  name ≠ "__proto__" →
  (∀ name, name ≠ "__proto__" →
     meta_own m !! name
     = match item_value items name with
       | Some v => Some v
       | None => meta_own empty_meta !! name
       end) →
  (item_value items "__proto__" = None → meta_chain m = meta_chain empty_meta) →
  (∀ v, item_value items name = Some v → meta_get m name = v)
  ∧ (item_value items name = None → item_value items "__proto__" = None →
     meta_get m name = JUndef).
Proof.
  intros Hname Hown Hchain. unfold meta_get. rewrite (Hown name Hname).
  split.
  - by intros v ->.
  - intros -> Hproto. simpl. rewrite lookup_empty, (Hchain Hproto). done.
Qed.

Lemma collect_metadata_items (cb : list (string * value)) (items : list value) :
  metadata_items cb = Some items →
  collect_metadata Number_toString (get_opt (JObj cb) "CallbackMetadata")
  = forEach_flatten Number_toString items empty_meta.
Proof.
  unfold metadata_items, collect_metadata.
  destruct (get_opt (JObj cb) "CallbackMetadata") as [| | b | n | t | l | props];
    simpl; try (intros [= <-]; reflexivity).
  destruct (default JUndef (get_own props "Item")); intros [= <-]; reflexivity.
Qed.

(** A notification of code [0] with well-formed metadata: the handler
    acknowledges and assigns the success record built from the flattened
    items. *)
Lemma callback_success (req : request) (s : store) (cb : list (string * value))
    (id : string) (q : Q) (items : list value) (m : meta_object) :
  stkCallback_of req = JObj cb →
  get_own cb "CheckoutRequestID" = Some (JStr id) →
  get_own cb "ResultCode" = Some (JNum (Fin q)) →
  (q == 0)%Q →
  metadata_items cb = Some items →
  forEach_flatten Number_toString items empty_meta = Normal m →
  mpesa_callback Number_toString req s
  = responded (res_json (Data acknowledgment))
      (store_set s id (success_record m)) [].
Proof.
  intros Hcb Hid Hcode Hq Hitems Hrun.
  unfold mpesa_callback. fold (stkCallback_of req). rewrite Hcb.
  rewrite (collect_metadata_items cb items Hitems), Hrun.
  simpl. rewrite Hid, Hcode. simpl.
  by rewrite (proj2 (Qeq_bool_iff q (inject_Z 0)) Hq).
Qed.

(** A notification of a code other than [0]: the handler acknowledges
    and assigns the failure record. *)
Lemma callback_failure (req : request) (s : store) (cb : list (string * value))
    (id : string) (q : Q) :
  stkCallback_of req = JObj cb →
  get_own cb "CheckoutRequestID" = Some (JStr id) →
  get_own cb "ResultCode" = Some (JNum (Fin q)) →
  ¬ (q == 0)%Q →
  store_after (mpesa_callback Number_toString req s)
  = store_set s id
      (failure_record (JNum (Fin q)) (get_opt (JObj cb) "ResultDesc")).
Proof.
  intros Hcb Hid Hcode Hq.
  unfold mpesa_callback. fold (stkCallback_of req). rewrite Hcb.
  simpl. rewrite Hid, Hcode. simpl.
  destruct (Qeq_bool q (inject_Z 0)) eqn:Hz.
  - apply Qeq_bool_iff in Hz. contradiction.
  - by destruct (ToString Number_toString (default JUndef (get_own cb "ResultDesc"))).
Qed.

(** ** The Result Reconciler *)

(** X24. A notification whose nested result object is present, with a
    string identifier, result code [0] and metadata items that are
    absent or a list of name/value pairs: the record read back under the
    identifier has status [success], and each of [amount], [receipt],
    [phone] and [date] is populated from the items named [Amount],
    [MpesaReceiptNumber], [PhoneNumber] and [TransactionDate]. *)
Theorem X24_success_record_from_metadata (req : request) (s : store)
    (cb : list (string * value)) (id : string) (q : Q) (items : list value) :
  stkCallback_of req = JObj cb →
  get_own cb "CheckoutRequestID" = Some (JStr id) →
  get_own cb "ResultCode" = Some (JNum (Fin q)) →
  (q == 0)%Q →
  metadata_items cb = Some items →
  forallb is_item items = true →
  ∃ r : record,
    store_get (store_after (mpesa_callback Number_toString req s)) id
    = Data (JObj r)
    ∧ status_of r = JStr "success"
    ∧ populated_from items r "amount" "Amount"
    ∧ populated_from items r "receipt" "MpesaReceiptNumber"
    ∧ populated_from items r "phone" "PhoneNumber"
    ∧ populated_from items r "date" "TransactionDate".
Proof.
  intros Hcb Hid Hcode Hq Hitems Hwf.
  destruct (forEach_flatten_items items Hwf empty_meta) as (m & Hrun & Hown & Hchain).
  exists (success_record m).
  rewrite (callback_success req s cb id q items m) by done.
  split; [by apply store_get_set |].
  split; [reflexivity |].
  unfold populated_from; simpl.
  repeat split; intros;
    match goal with
    | |- Some (meta_get _ ?name) = Some _ =>
        f_equal;
        by eapply (meta_get_populated items m name)
    end.
Qed.

(** C1, on the code: the notification for [ws_1] whose metadata [Item]
    is an object instead of a list has its result object present and
    carries the result code [0], yet no success record is written. The
    optional chain [CallbackMetadata?.Item?.forEach] only guards
    [undefined] and [null]: the handler throws at [forEach], before the
    assignment and before the acknowledgment, and a lookup of [ws_1]
    still finds nothing. *)
Theorem C1_success_notification_not_recorded :
  stkCallback_of (notification odd_items_result) = JObj odd_items_result
  ∧ get_own odd_items_result "CheckoutRequestID" = Some (JStr "ws_1")
  ∧ get_own odd_items_result "ResultCode" = Some (JNum (Fin 0))
  ∧ (∃ e, result (mpesa_callback Number_toString (notification odd_items_result)
                    empty_store) = Throw e)
  ∧ store_after (mpesa_callback Number_toString (notification odd_items_result)
                   empty_store) = empty_store
  ∧ store_get
      (store_after (mpesa_callback Number_toString (notification odd_items_result)
                      empty_store))
      "ws_1" = Data JUndef.
Proof.
  repeat split; try reflexivity. by eexists.
Qed.

(** C2. A notification whose nested result object is present, with a
    string identifier and a non-zero result code: the record read back
    under the identifier carries the result description as [message],
    and its status is [cancelled] for code [1032] and [failed] for every
    other code. *)
Theorem C2_failure_record (req : request) (s : store)
    (cb : list (string * value)) (id : string) (q : Q) :
  stkCallback_of req = JObj cb →
  get_own cb "CheckoutRequestID" = Some (JStr id) →
  get_own cb "ResultCode" = Some (JNum (Fin q)) →
  ¬ (q == 0)%Q →
  ∃ r : record,
    store_get (store_after (mpesa_callback Number_toString req s)) id
    = Data (JObj r)
    ∧ get_own r "message" = Some (get_opt (JObj cb) "ResultDesc")
    ∧ ((q == 1032)%Q → status_of r = JStr "cancelled")
    ∧ (¬ (q == 1032)%Q → status_of r = JStr "failed").
Proof.
  intros Hcb Hid Hcode Hq.
  exists (failure_record (JNum (Fin q)) (get_opt (JObj cb) "ResultDesc")).
  rewrite (callback_failure req s cb id q) by done.
  split; [by apply store_get_set |].
  split; [reflexivity |].
  unfold failure_record, status_of; simpl.
  destruct (Qeq_bool q (inject_Z 1032)) eqn:Hc; simpl.
  - split; [done |]. intros Hne. apply Qeq_bool_iff in Hc. contradiction.
  - split; [| done]. intros Heq.
    apply (Qeq_bool_iff q (inject_Z 1032)) in Heq. congruence.
Qed.

(** C4. A notification without the nested result object (the guard
    [!body] holds: the object is missing, or is any other falsy value):
    the response is HTTP 200 with the fixed acknowledgment, no gateway
    call is made and the store is the one before. *)
Theorem C4_malformed_notification_acknowledged (req : request) (s : store) :
  truthy (stkCallback_of req) = false →
  mpesa_callback Number_toString req s
  = {| result := Normal {| res_status := 200; res_body := Data acknowledgment |};
       store_after := s;
       calls := [] |}.
Proof.
  intros Hbody. unfold mpesa_callback. fold (stkCallback_of req).
  by rewrite Hbody.
Qed.

(** C10. A notification of result code [0] whose metadata item list is
    absent: the handler does not throw, answers the fixed
    acknowledgment, and the record read back under the identifier has
    status [success] and its four other fields [undefined] (left out of
    the JSON of a status response). *)
Theorem C10_success_without_metadata (req : request) (s : store)
    (cb : list (string * value)) (id : string) (q : Q) :
  stkCallback_of req = JObj cb →
  get_own cb "CheckoutRequestID" = Some (JStr id) →
  get_own cb "ResultCode" = Some (JNum (Fin q)) →
  (q == 0)%Q →
  get_opt (get_opt (JObj cb) "CallbackMetadata") "Item" = JUndef →
  result (mpesa_callback Number_toString req s)
  = Normal {| res_status := 200; res_body := Data acknowledgment |}
  ∧ store_get (store_after (mpesa_callback Number_toString req s)) id
    = Data (JObj [ ("status", JStr "success"); ("amount", JUndef);
                   ("receipt", JUndef); ("phone", JUndef); ("date", JUndef) ]).
Proof.
  intros Hcb Hid Hcode Hq Habsent.
  rewrite (callback_success req s cb id q [] empty_meta); try done.
  - split; [reflexivity |]. simpl. by rewrite store_get_set.
  - unfold metadata_items. by rewrite Habsent.
Qed.

(** ** The Request Initiator *)

Lemma get_get_opt (v : value) (k : string) :
  v ≠ JUndef → v ≠ JNull → get v k = Normal (get_opt v k).
Proof. by destruct v. Qed.

(** The guard [!phone || !amount]: a falsy field ends the request with
    400 before anything else happens. *)
Lemma stk_push_rejects (env : environment) (req : request) (s : store) :
  req_body req ≠ JUndef → req_body req ≠ JNull →
  truthy (get_opt (req_body req) "phone") = false
  ∨ truthy (get_opt (req_body req) "amount") = false →
  stk_push Number_toString StringToNumber env req s
  = {| result :=
         Normal {| res_status := 400;
                   res_body := Data (JObj [("errorMessage",
                                            JStr "phone and amount are required")]) |};
       store_after := s;
       calls := [] |}.
Proof.
  intros Hu Hn Hfalsy. unfold stk_push.
  rewrite get_get_opt by done.
  destruct Hfalsy as [-> | ->]; [done |].
  by rewrite orb_true_r.
Qed.

(** Past the guard, the handler is its [try] block and its [catch]. *)
Lemma stk_push_accepted (env : environment) (req : request) (s : store) :
  req_body req ≠ JUndef → req_body req ≠ JNull →
  truthy (get_opt (req_body req) "phone") = true →
  truthy (get_opt (req_body req) "amount") = true →
  stk_push Number_toString StringToNumber env req s
  = let '(answer, cs) :=
      submit Number_toString StringToNumber env
        (get_opt (req_body req) "phone") (get_opt (req_body req) "amount")
        (get_opt (req_body req) "description") in
    match
      data ← answer;
      id ← get data "CheckoutRequestID";
      if truthy id
      then (k ← ToPropertyKey Number_toString id; Normal (data, Some k))
      else Normal (data, None)
    with
    | Normal (data, Some k) =>
        responded (res_json (Data data)) (store_set s k pending_record) cs
    | Normal (data, None) => responded (res_json (Data data)) s cs
    | Throw err =>
        responded (res_status_json 500 (JObj [("errorMessage", error_message err)]))
          s cs
    end.
Proof.
  intros Hu Hn Hphone Hamount. unfold stk_push.
  rewrite get_get_opt by done.
  by rewrite Hphone, Hamount.
Qed.

Lemma submit_fails (env : environment) (phone amount description : value)
    (err : error) :
  submission_fails Number_toString StringToNumber env phone amount description err →
  (submit Number_toString StringToNumber env phone amount description).1
  = Throw err.
Proof.
  unfold submission_fails, submit, getTimestampAndPassword.
  intros [-> | (token & Amount & bearer & -> & -> & -> & Hpost)]; [done |].
  simpl. exact Hpost.
Qed.

(** C6. An initiation request whose body lacks [phone] (the spec's
    payerPhone) or [amount]: the response is HTTP 400, neither the token
    provider nor the gateway is called, and the store is the one
    before. *)
Theorem C6_missing_field_rejected (env : environment) (req : request) (s : store)
    (fields : list (string * value)) :
  req_body req = JObj fields →
  get_own fields "phone" = None ∨ get_own fields "amount" = None →
  result (stk_push Number_toString StringToNumber env req s)
  = Normal {| res_status := 400;
              res_body := Data (JObj [("errorMessage",
                                       JStr "phone and amount are required")]) |}
  ∧ calls (stk_push Number_toString StringToNumber env req s) = []
  ∧ store_after (stk_push Number_toString StringToNumber env req s) = s.
Proof.
  intros Hbody Hmissing.
  rewrite stk_push_rejects; [done | by rewrite Hbody .. |].
  rewrite Hbody. simpl.
  destruct Hmissing as [-> | ->]; auto.
Qed.

(** C9. An initiation request that carries both fields, but with
    [amount] equal to [0] or [phone] the empty string: it is rejected as
    one that lacks the field, with HTTP 400, no call and no record. *)
Theorem C9_falsy_field_rejected (env : environment) (req : request) (s : store)
    (fields : list (string * value)) (phone amount : value) :
  req_body req = JObj fields →
  get_own fields "phone" = Some phone →
  get_own fields "amount" = Some amount →
  (∃ q, amount = JNum (Fin q) ∧ (q == 0)%Q) ∨ phone = JStr "" →
  result (stk_push Number_toString StringToNumber env req s)
  = Normal {| res_status := 400;
              res_body := Data (JObj [("errorMessage",
                                       JStr "phone and amount are required")]) |}
  ∧ calls (stk_push Number_toString StringToNumber env req s) = []
  ∧ store_after (stk_push Number_toString StringToNumber env req s) = s.
Proof.
  intros Hbody Hphone Hamount Hfalsy.
  rewrite stk_push_rejects; [done | by rewrite Hbody .. |].
  rewrite Hbody. simpl. rewrite Hphone, Hamount. simpl.
  destruct Hfalsy as [(q & -> & Hq) | ->]; [right | left; done].
  simpl. apply Qeq_bool_iff in Hq. by rewrite Hq.
Qed.

(** C7. A request that passes the guard and on which token acquisition
    or gateway submission fails with [err]: the response is HTTP 500,
    its [errorMessage] is the [errorMessage] of the error body
    ([err.response.data]) when there is one (a truthy one) and the fixed
    fallback otherwise, and the store is the one before. *)
Theorem C7_failed_submission_not_recorded (env : environment) (req : request)
    (s : store) (fields : list (string * value)) (err : error) :
  req_body req = JObj fields →
  truthy (get_opt (JObj fields) "phone") = true →
  truthy (get_opt (JObj fields) "amount") = true →
  submission_fails Number_toString StringToNumber env
    (get_opt (JObj fields) "phone") (get_opt (JObj fields) "amount")
    (get_opt (JObj fields) "description") err →
  let out := stk_push Number_toString StringToNumber env req s in
  let from_body := get_opt (get_opt (err_response err) "data") "errorMessage" in
  ∃ message : value,
    result out
    = Normal {| res_status := 500;
                res_body := Data (JObj [("errorMessage", message)]) |}
    ∧ (truthy from_body = true → message = from_body)
    ∧ (truthy from_body = false → message = fallback_message)
    ∧ store_after out = s.
Proof.
  intros Hbody Hphone Hamount Hfails out from_body.
  exists (error_message err). subst out.
  rewrite stk_push_accepted by (by rewrite Hbody).
  rewrite Hbody. apply submit_fails in Hfails.
  destruct (submit _ _ _ _ _ _) as [answer cs]. simpl in Hfails. subst answer.
  simpl. unfold error_message, or_else. fold from_body.
  repeat split; by intros ->.
Qed.

(** The calls of a request that passes the guard are those of its
    [try] block. *)
Lemma stk_push_accepted_calls (env : environment) (req : request) (s : store) :
  req_body req ≠ JUndef → req_body req ≠ JNull →
  truthy (get_opt (req_body req) "phone") = true →
  truthy (get_opt (req_body req) "amount") = true →
  calls (stk_push Number_toString StringToNumber env req s)
  = (submit Number_toString StringToNumber env
       (get_opt (req_body req) "phone") (get_opt (req_body req) "amount")
       (get_opt (req_body req) "description")).2.
Proof.
  intros Hu Hn Hphone Hamount. rewrite stk_push_accepted by done.
  destruct (submit _ _ _ _ _ _) as [answer cs]. simpl.
  by repeat case_match.
Qed.

(** With a numeric amount, the [try] block calls the token provider,
    and then the gateway if the token came and prints. *)
Lemma submit_calls (env : environment) (phone description : value) (n : number) :
  (submit Number_toString StringToNumber env phone (JNum n) description).2
  = match token ← getAccessToken env; ToString Number_toString token with
    | Normal bearer =>
        let '(timestamp, password) := getTimestampAndPassword env in
        [ OAuthRequest;
          StkPushRequest
            (stk_payload env timestamp password (ceil n) phone description)
            ("Bearer " ++ bearer) ]
    | Throw _ => [OAuthRequest]
    end.
Proof.
  unfold submit, getTimestampAndPassword, Math_ceil. simpl.
  destruct (getAccessToken env) as [token | e]; simpl; [| done].
  by destruct (ToString Number_toString token).
Qed.

(** C8. A request that passes the guard with a finite amount [q]: every
    push placed on the gateway carries as [Amount] the ceiling of [q],
    the least integer not below [q], and a push is placed as soon as the
    token is obtained. *)
Theorem C8_amount_rounded_up (env : environment) (req : request) (s : store)
    (fields : list (string * value)) (q : Q) :
  req_body req = JObj fields →
  truthy (get_opt (JObj fields) "phone") = true →
  get_own fields "amount" = Some (JNum (Fin q)) →
  ¬ (q == 0)%Q →
  let out := stk_push Number_toString StringToNumber env req s in
  (∀ payload authorization,
     StkPushRequest payload authorization ∈ calls out →
     get_opt payload "Amount" = JNum (Fin (inject_Z (Qceiling q))))
  ∧ (inject_Z (Qceiling q - 1) < q ∧ q <= inject_Z (Qceiling q))%Q
  ∧ (∀ token bearer,
       getAccessToken env = Normal token →
       ToString Number_toString token = Normal bearer →
       ∃ payload,
         calls out = [OAuthRequest; StkPushRequest payload ("Bearer " ++ bearer)]).
Proof.
  intros Hbody Hphone Hamount Hq out. subst out.
  assert (get_opt (JObj fields) "amount" = JNum (Fin q)) as Hq'
    by (simpl; by rewrite Hamount).
  assert (truthy (get_opt (JObj fields) "amount") = true) as Htruthy.
  { rewrite Hq'. simpl. destruct (Qeq_bool q 0) eqn:Hz; [| done].
    apply Qeq_bool_iff in Hz. contradiction. }
  rewrite stk_push_accepted_calls by (by rewrite Hbody).
  rewrite Hbody, Hq', submit_calls. unfold getTimestampAndPassword.
  split; [| split].
  - intros payload authorization.
    destruct (token ← getAccessToken env; ToString Number_toString token)
      as [bearer | e]; intros Hin.
    + apply elem_of_cons in Hin as [[=] | Hin].
      apply list_elem_of_singleton in Hin as [= -> _]. reflexivity.
    + apply list_elem_of_singleton in Hin. discriminate.
  - split; [apply Qceiling_lt | apply Qle_ceiling].
  - intros token bearer -> Hbearer. simpl. rewrite Hbearer. by eexists.
Qed.

(** ** The Status Reader *)

(** A poll never writes. *)
Lemma stk_status_reads_only (req : request) (s : store) :
  store_after (stk_status Number_toString req s) = s.
Proof. unfold stk_status. by repeat case_match. Qed.

(** A poll for a string that is neither assigned nor the name of a
    property of [Object.prototype], on a store whose prototype was not
    replaced, answers the synthesized pending record. *)
Lemma stk_status_unknown (s : store) (id : string) :
  id ≠ "" →
  own s !! id = None →
  proto s = None →
  id ≠ "__proto__" →
  is_object_prototype_function id = false →
  result (stk_status Number_toString (query_of id) s)
  = Normal {| res_status := 200; res_body := Data (JObj pending_record) |}.
Proof.
  intros Hid Hown Hproto Hname Hfun.
  assert (store_get s id = Data JUndef) as Hget.
  { unfold store_get, object_prototype_get.
    apply String.eqb_neq in Hname. by rewrite Hown, Hproto, Hname, Hfun. }
  unfold stk_status. cbn -[store_get].
  apply String.eqb_neq in Hid. by rewrite Hid, Hget.
Qed.

(** C5, on the code: a poll for [constructor], under which nothing was
    ever stored, is answered with the function inherited from
    [Object.prototype] (which [res.json] sends as an empty body), not
    with the pending record. *)
Theorem C5_poll_of_inherited_name :
  stored empty_store "constructor" = None
  ∧ stk_status Number_toString (query_of "constructor") empty_store
    = {| result :=
           Normal {| res_status := 200;
                     res_body := Builtin "Object.prototype.constructor" |};
         store_after := empty_store;
         calls := [] |}.
Proof. split; [apply stored_empty | reflexivity]. Qed.

(** ** The lifecycle of a record *)

Lemma stored_after_write (s : store) (k id : string) (r : record) :
  stored (store_set s k r) id = after_write (Some (k, r)) s id.
Proof.
  unfold after_write.
  destruct (String.eqb_spec k id) as [<- | Hne].
  - apply stored_set_eq.
  - by apply stored_set_ne.
Qed.

Lemma failure_record_terminal (ResultCode ResultDesc : value) :
  is_terminal (failure_record ResultCode ResultDesc) = true.
Proof.
  unfold failure_record, is_terminal, is_status, status_of; simpl.
  by destruct (strict_eq_int ResultCode 1032).
Qed.

(** C3, as the code has it (last write wins). Every operation either
    writes one record under one identifier or writes nothing, and which
    of the two does not depend on the store: the record of an identifier
    after the operation is the record written, whatever was held before,
    when the operation writes under that identifier, and the record held
    before otherwise. A reconciliation writes terminal records only, an
    initiation the pending record only, a poll nothing. *)
Theorem C3_last_write_wins (o : operation) :
  ∃ w : option (string * record),
    (∀ (s : store) (id : string),
       stored (store_after (step Number_toString StringToNumber o s)) id
       = after_write w s id)
    ∧ (∀ k r, w = Some (k, r) →
         match o with
         | Initiate _ _ => r = pending_record
         | Reconcile _ => is_terminal r = true
         | Poll _ => False
         end).
Proof.
  destruct o as [env req | req | req]; simpl.
  - (* Initiate *)
    unfold stk_push.
    destruct (get (req_body req) "phone") as [phone | e];
      [| by exists None].
    destruct (negb (truthy phone) || negb (truthy (get_opt (req_body req) "amount")));
      [by exists None |].
    destruct (submit _ _ _ _ _ _) as [answer cs].
    destruct answer as [data | e]; simpl; [| by exists None].
    destruct (get data "CheckoutRequestID") as [id | e]; simpl;
      [| by exists None].
    destruct (truthy id); [| by exists None].
    destruct (ToPropertyKey Number_toString id) as [k | e]; simpl;
      [| by exists None].
    exists (Some (k, pending_record)). split.
    + intros s id'. by apply stored_after_write.
    + by intros ? ? [= _ <-].
  - (* Reconcile *)
    unfold mpesa_callback.
    destruct (negb (truthy (get_opt (get_opt (req_body req) "Body") "stkCallback")));
      [by exists None |].
    set (body := get_opt (get_opt (req_body req) "Body") "stkCallback").
    destruct (_ ← ToString Number_toString (get_opt body "CheckoutRequestID");
              ToString Number_toString (get_opt body "ResultCode"))
      as [_t | e]; [| by exists None].
    destruct (strict_eq_int (get_opt body "ResultCode") 0).
    + destruct (collect_metadata Number_toString (get_opt body "CallbackMetadata"))
        as [meta | e]; simpl; [| by exists None].
      destruct (ToPropertyKey Number_toString (get_opt body "CheckoutRequestID"))
        as [k | e]; simpl; [| by exists None].
      exists (Some (k, success_record meta)). split.
      * intros s id'. by apply stored_after_write.
      * by intros ? ? [= _ <-].
    + destruct (ToPropertyKey Number_toString (get_opt body "CheckoutRequestID"))
        as [k | e]; simpl; [| by exists None].
      exists (Some (k, failure_record (get_opt body "ResultCode")
                         (get_opt body "ResultDesc"))).
      split.
      * intros s id'. rewrite <- stored_after_write.
        by destruct (ToString Number_toString (get_opt body "ResultDesc")).
      * intros ? ? [= _ <-]. apply failure_record_terminal.
  - (* Poll *)
    exists None. split; [| done].
    intros s id. by rewrite stk_status_reads_only.
Qed.

End Properties.

(** * Closed instances *)

(** The success scenario: the notification for [ws_1] with an [Amount]
    and a receipt item. *)
Lemma X24_witness :
  (stkCallback_of (notification paid_result) = JObj paid_result
   ∧ get_own paid_result "CheckoutRequestID" = Some (JStr "ws_1")
   ∧ get_own paid_result "ResultCode" = Some (JNum (Fin 0))
   ∧ (0 == 0)%Q
   ∧ metadata_items paid_result = Some paid_items
   ∧ forallb is_item paid_items = true)
  ∧ ∃ r : record,
      store_get
        (store_after
           (mpesa_callback decimal_toString (notification paid_result) empty_store))
        "ws_1" = Data (JObj r)
      ∧ status_of r = JStr "success"
      ∧ populated_from paid_items r "amount" "Amount"
      ∧ populated_from paid_items r "receipt" "MpesaReceiptNumber"
      ∧ populated_from paid_items r "phone" "PhoneNumber"
      ∧ populated_from paid_items r "date" "TransactionDate".
Proof.
  split.
  - repeat split; reflexivity.
  - apply (X24_success_record_from_metadata decimal_toString
             (notification paid_result) empty_store paid_result "ws_1" 0 paid_items);
      reflexivity.
Defined.

(** The cancellation scenario: code [1032] for [ws_1]. *)
Lemma C2_witness :
  (stkCallback_of (notification cancelled_result) = JObj cancelled_result
   ∧ get_own cancelled_result "CheckoutRequestID" = Some (JStr "ws_1")
   ∧ get_own cancelled_result "ResultCode" = Some (JNum (Fin 1032))
   ∧ ¬ (1032 == 0)%Q)
  ∧ ∃ r : record,
      store_get
        (store_after
           (mpesa_callback decimal_toString (notification cancelled_result)
              empty_store))
        "ws_1" = Data (JObj r)
      ∧ get_own r "message" = Some (get_opt (JObj cancelled_result) "ResultDesc")
      ∧ ((1032 == 1032)%Q → status_of r = JStr "cancelled")
      ∧ (¬ (1032 == 1032)%Q → status_of r = JStr "failed").
Proof.
  split.
  - repeat split; try reflexivity. intros H; discriminate H.
  - apply (C2_failure_record decimal_toString
             (notification cancelled_result) empty_store cancelled_result "ws_1" 1032);
      try reflexivity.
    intros H; discriminate H.
Defined.

(** A body without [Body.stkCallback]. *)
Lemma C4_witness :
  truthy (stkCallback_of (body_of (JObj [("hello", JStr "world")]))) = false
  ∧ mpesa_callback decimal_toString (body_of (JObj [("hello", JStr "world")]))
      empty_store
    = {| result := Normal {| res_status := 200; res_body := Data acknowledgment |};
         store_after := empty_store;
         calls := [] |}.
Proof.
  split; [reflexivity |].
  apply (C4_malformed_notification_acknowledged decimal_toString). reflexivity.
Defined.

(** The request [{ phone: "254700000000" }], without an amount. *)
Lemma C6_witness :
  let req := body_of (JObj [("phone", JStr "254700000000")]) in
  let out := stk_push decimal_toString no_numeric_string accepting_gateway req
               empty_store in
  (req_body req = JObj [("phone", JStr "254700000000")]
   ∧ (get_own [("phone", JStr "254700000000")] "phone" = None
      ∨ get_own [("phone", JStr "254700000000")] "amount" = None))
  ∧ result out
    = Normal {| res_status := 400;
                res_body := Data (JObj [("errorMessage",
                                         JStr "phone and amount are required")]) |}
  ∧ calls out = []
  ∧ store_after out = empty_store.
Proof.
  split.
  - split; [reflexivity | right; reflexivity].
  - apply (C6_missing_field_rejected decimal_toString no_numeric_string
             accepting_gateway _ empty_store [("phone", JStr "254700000000")]);
      [reflexivity | right; reflexivity].
Defined.

(** A push of 10.4 that the gateway rejects with an error body. *)
Lemma C7_witness :
  let fields := [("phone", JStr "254700000000"); ("amount", JNum (Fin ten_point_four))] in
  let out := stk_push decimal_toString no_numeric_string rejecting_gateway
               (push_request ten_point_four) empty_store in
  (req_body (push_request ten_point_four) = JObj fields
   ∧ truthy (get_opt (JObj fields) "phone") = true
   ∧ truthy (get_opt (JObj fields) "amount") = true
   ∧ submission_fails decimal_toString no_numeric_string rejecting_gateway
       (get_opt (JObj fields) "phone") (get_opt (JObj fields) "amount")
       (get_opt (JObj fields) "description") invalid_phone_error)
  ∧ ∃ message : value,
      result out
      = Normal {| res_status := 500;
                  res_body := Data (JObj [("errorMessage", message)]) |}
      ∧ (truthy (JStr "Invalid PhoneNumber") = true
         → message = JStr "Invalid PhoneNumber")
      ∧ (truthy (JStr "Invalid PhoneNumber") = false → message = fallback_message)
      ∧ store_after out = empty_store.
Proof.
  assert (submission_fails decimal_toString no_numeric_string rejecting_gateway
            (JStr "254700000000") (JNum (Fin ten_point_four)) JUndef
            invalid_phone_error) as Hfails.
  { right. exists (JStr "token"), (Fin 11), "token". repeat split; reflexivity. }
  split.
  - repeat split; try reflexivity. exact Hfails.
  - apply (C7_failed_submission_not_recorded decimal_toString no_numeric_string
             rejecting_gateway (push_request ten_point_four) empty_store
             [("phone", JStr "254700000000"); ("amount", JNum (Fin ten_point_four))]
             invalid_phone_error);
      try reflexivity.
    exact Hfails.
Defined.

(** The initiation scenario: an amount of 10.4 is submitted as 11. *)
Lemma C8_witness :
  let fields := [("phone", JStr "254700000000"); ("amount", JNum (Fin ten_point_four))] in
  let out := stk_push decimal_toString no_numeric_string accepting_gateway
               (push_request ten_point_four) empty_store in
  (req_body (push_request ten_point_four) = JObj fields
   ∧ truthy (get_opt (JObj fields) "phone") = true
   ∧ get_own fields "amount" = Some (JNum (Fin ten_point_four))
   ∧ ¬ (ten_point_four == 0)%Q)
  ∧ (∀ payload authorization,
       StkPushRequest payload authorization ∈ calls out →
       get_opt payload "Amount" = JNum (Fin (inject_Z 11)))
  ∧ (inject_Z (11 - 1) < ten_point_four ∧ ten_point_four <= inject_Z 11)%Q
  ∧ (∀ token bearer,
       getAccessToken accepting_gateway = Normal token →
       ToString decimal_toString token = Normal bearer →
       ∃ payload,
         calls out = [OAuthRequest; StkPushRequest payload ("Bearer " ++ bearer)]).
Proof.
  split.
  - repeat split; try reflexivity. intros H; discriminate H.
  - apply (C8_amount_rounded_up decimal_toString no_numeric_string
             accepting_gateway (push_request ten_point_four) empty_store
             [("phone", JStr "254700000000"); ("amount", JNum (Fin ten_point_four))]
             ten_point_four);
      try reflexivity.
    intros H; discriminate H.
Defined.

(** The request [{ phone: "254700000000", amount: 0 }]. *)
Lemma C9_witness :
  let fields := [("phone", JStr "254700000000"); ("amount", JNum (Fin 0))] in
  let out := stk_push decimal_toString no_numeric_string accepting_gateway
               (push_request 0) empty_store in
  (req_body (push_request 0) = JObj fields
   ∧ get_own fields "phone" = Some (JStr "254700000000")
   ∧ get_own fields "amount" = Some (JNum (Fin 0))
   ∧ ((∃ q, JNum (Fin 0) = JNum (Fin q) ∧ (q == 0)%Q)
      ∨ JStr "254700000000" = JStr ""))
  ∧ result out
    = Normal {| res_status := 400;
                res_body := Data (JObj [("errorMessage",
                                         JStr "phone and amount are required")]) |}
  ∧ calls out = []
  ∧ store_after out = empty_store.
Proof.
  assert ((∃ q, JNum (Fin 0) = JNum (Fin q) ∧ (q == 0)%Q)
          ∨ JStr "254700000000" = JStr "") as Hfalsy.
  { left. exists 0%Q. split; reflexivity. }
  split.
  - repeat split; try reflexivity. exact Hfalsy.
  - apply (C9_falsy_field_rejected decimal_toString no_numeric_string
             accepting_gateway (push_request 0) empty_store
             [("phone", JStr "254700000000"); ("amount", JNum (Fin 0))]
             (JStr "254700000000") (JNum (Fin 0)));
      try reflexivity.
    exact Hfalsy.
Defined.

(** A success notification for [ws_1] without [CallbackMetadata]. *)
Lemma C10_witness :
  (stkCallback_of (notification bare_result) = JObj bare_result
   ∧ get_own bare_result "CheckoutRequestID" = Some (JStr "ws_1")
   ∧ get_own bare_result "ResultCode" = Some (JNum (Fin 0))
   ∧ (0 == 0)%Q
   ∧ get_opt (get_opt (JObj bare_result) "CallbackMetadata") "Item" = JUndef)
  ∧ result (mpesa_callback decimal_toString (notification bare_result) empty_store)
    = Normal {| res_status := 200; res_body := Data acknowledgment |}
  ∧ store_get
      (store_after
         (mpesa_callback decimal_toString (notification bare_result) empty_store))
      "ws_1"
    = Data (JObj [ ("status", JStr "success"); ("amount", JUndef);
                   ("receipt", JUndef); ("phone", JUndef); ("date", JUndef) ]).
Proof.
  split.
  - repeat split; reflexivity.
  - apply (C10_success_without_metadata decimal_toString
             (notification bare_result) empty_store bare_result "ws_1" 0);
      reflexivity.
Defined.

(** The lifecycle scenario on [ws_1]: the push registers a pending
    record, which a poll reads; the success notification replaces it;
    the later cancellation replaces the success record in turn. *)
Example lifecycle_of_ws_1 :
  let s1 := run decimal_toString no_numeric_string
              [Initiate accepting_gateway (push_request ten_point_four)]
              empty_store in
  let s2 := run decimal_toString no_numeric_string
              [Reconcile (notification paid_result)] s1 in
  let s3 := run decimal_toString no_numeric_string
              [Reconcile (notification cancelled_result)] s2 in
  stored s1 "ws_1" = Some pending_record
  ∧ result (stk_status decimal_toString (query_of "ws_1") s1)
    = Normal (res_json (Data (JObj pending_record)))
  ∧ stored s2 "ws_1"
    = Some [ ("status", JStr "success"); ("amount", JNum (Fin 11));
             ("receipt", JStr "ABC123"); ("phone", JUndef); ("date", JUndef) ]
  ∧ stored s3 "ws_1"
    = Some [ ("status", JStr "cancelled");
             ("message", JStr "Request cancelled by user") ].
Proof. vm_compute. repeat split; reflexivity. Qed.

(** C3, as stated, fails: the success notification for [ws_1] followed
    by the cancellation for [ws_1] leaves a cancelled record where a
    success record was. *)
Lemma C3_terminal_record_overwritten : ¬ terminal_records_are_final.
Proof.
  intros Hfinal.
  specialize (Hfinal decimal_toString no_numeric_string
                [Reconcile (notification paid_result)]
                (Reconcile (notification cancelled_result))
                "ws_1"
                [ ("status", JStr "success"); ("amount", JNum (Fin 11));
                  ("receipt", JStr "ABC123"); ("phone", JUndef);
                  ("date", JUndef) ]
                eq_refl eq_refl eq_refl).
  vm_compute in Hfinal. discriminate Hfinal.
Qed.

(** * Further properties *)

(** ** Assignments to the store *)

Lemma reaches_proto_setter_key (s : store) (k : string) :
  reaches_proto_setter s k = true → k = "__proto__".
Proof.
  unfold reaches_proto_setter. intros H.
  apply andb_prop in H as [H _]. apply andb_prop in H as [H _].
  by apply String.eqb_eq.
Qed.

(** Assigning the same record twice is assigning it once. *)
Lemma store_set_twice (s : store) (k : string) (r : record) :
  has_own r "__proto__" = false →
  store_set (store_set s k r) k r = store_set s k r.
Proof.
  intros Hr. unfold store_set at 2 3.
  destruct (reaches_proto_setter s k) eqn:Hreach.
  - pose proof (reaches_proto_setter_key s k Hreach) as ->.
    unfold store_set.
    assert (reaches_proto_setter {| own := own s; proto := Some r |} "__proto__"
            = true) as ->; [| done].
    unfold reaches_proto_setter in *. simpl.
    apply andb_prop in Hreach as [Hreach _].
    apply andb_prop in Hreach as [_ Hown]. by rewrite Hown, Hr.
  - unfold store_set, reaches_proto_setter. simpl.
    rewrite lookup_insert_eq.
    rewrite bool_decide_eq_true_2 by eauto.
    rewrite andb_false_r. simpl. by rewrite insert_insert_eq.
Qed.

(** Assignments under different keys commute. *)
Lemma store_set_commute (s : store) (k1 k2 : string) (r1 r2 : record) :
  k1 ≠ k2 →
  store_set (store_set s k1 r1) k2 r2 = store_set (store_set s k2 r2) k1 r1.
Proof.
  assert (∀ k k' r, k ≠ k' →
            reaches_proto_setter (store_set s k' r) k = reaches_proto_setter s k)
    as Hframe.
  { intros k k' r Hne.
    destruct (String.eqb_spec k "__proto__") as [-> | Hk].
    - unfold store_set.
      destruct (reaches_proto_setter s k') eqn:Hreach'.
      + apply reaches_proto_setter_key in Hreach'. congruence.
      + unfold reaches_proto_setter. simpl.
        by rewrite lookup_insert_ne by done.
    - unfold reaches_proto_setter.
      apply String.eqb_neq in Hk. by rewrite Hk. }
  intros Hne.
  unfold store_set at 1 3.
  rewrite (Hframe k2 k1 r1), (Hframe k1 k2 r2) by done.
  unfold store_set.
  destruct (reaches_proto_setter s k1) eqn:H1,
           (reaches_proto_setter s k2) eqn:H2; simpl; try done.
  - apply reaches_proto_setter_key in H1, H2. congruence.
  - by rewrite insert_insert_ne.
Qed.

Lemma store_set_empty (k : string) (r : record) :
  store_set empty_store k r
  = if String.eqb k "__proto__"
    then {| own := ∅; proto := Some r |}
    else {| own := {[ k := r ]}; proto := None |}.
Proof.
  unfold store_set, reaches_proto_setter, empty_store. simpl.
  rewrite lookup_empty.
  rewrite bool_decide_eq_false_2 by apply is_Some_None.
  destruct (String.eqb k "__proto__"); simpl; [done |].
  by rewrite insert_empty.
Qed.

Section FurtherProperties.

Variable Number_toString : number → string.
Variable StringToNumber : string → number.

(** ** What the handlers do, whatever the store *)

(** A notification decides its response and its write without reading
    the store. *)
Lemma callback_write (req : request) :
  ∃ w : option (string * record),
    (∀ s, mpesa_callback Number_toString req s
          = {| result := result (mpesa_callback Number_toString req empty_store);
               store_after := apply_write w s;
               calls := [] |})
    ∧ (∀ k r, w = Some (k, r) →
         has_own r "__proto__" = false ∧ is_terminal r = true).
Proof.
  unfold mpesa_callback.
  destruct (negb (truthy (get_opt (get_opt (req_body req) "Body") "stkCallback")));
    [by exists None |].
  set (body := get_opt (get_opt (req_body req) "Body") "stkCallback").
  destruct (_ ← ToString Number_toString (get_opt body "CheckoutRequestID");
            ToString Number_toString (get_opt body "ResultCode"))
    as [_t | e]; [| by exists None].
  destruct (strict_eq_int (get_opt body "ResultCode") 0).
  - destruct (collect_metadata Number_toString (get_opt body "CallbackMetadata"))
      as [meta | e]; simpl; [| by exists None].
    destruct (ToPropertyKey Number_toString (get_opt body "CheckoutRequestID"))
      as [k | e]; simpl; [| by exists None].
    exists (Some (k, success_record meta)). split; [done |].
    by intros ? ? [= _ <-].
  - destruct (ToPropertyKey Number_toString (get_opt body "CheckoutRequestID"))
      as [k | e]; simpl; [| by exists None].
    exists (Some (k, failure_record (get_opt body "ResultCode")
                       (get_opt body "ResultDesc"))).
    split.
    + intros s.
      by destruct (ToString Number_toString (get_opt body "ResultDesc")).
    + intros ? ? [= _ <-]. split; [done | apply failure_record_terminal].
Qed.

(** So does an initiation. *)
Lemma stk_push_write (env : environment) (req : request) :
  ∃ w : option (string * record),
    (∀ s, stk_push Number_toString StringToNumber env req s
          = {| result := result (stk_push Number_toString StringToNumber env req
                                   empty_store);
               store_after := apply_write w s;
               calls := calls (stk_push Number_toString StringToNumber env req
                                 empty_store) |})
    ∧ (∀ k r, w = Some (k, r) → r = pending_record).
Proof.
  unfold stk_push.
  destruct (get (req_body req) "phone") as [phone | e]; [| by exists None].
  destruct (negb (truthy phone) || negb (truthy (get_opt (req_body req) "amount")));
    [by exists None |].
  destruct (submit _ _ _ _ _ _) as [answer cs].
  destruct answer as [data | e]; simpl; [| by exists None].
  destruct (get data "CheckoutRequestID") as [id | e]; simpl; [| by exists None].
  destruct (truthy id); [| by exists None].
  destruct (ToPropertyKey Number_toString id) as [k | e]; simpl;
    [| by exists None].
  exists (Some (k, pending_record)). split; [done |].
  by intros ? ? [= _ <-].
Qed.

Lemma step_write (o : operation) :
  ∃ w : option (string * record),
    (∀ s, store_after (step Number_toString StringToNumber o s) = apply_write w s)
    ∧ (∀ k r, w = Some (k, r) → is_handler_record r = true).
Proof.
  destruct o as [env req | req | req]; simpl.
  - destruct (stk_push_write env req) as (w & Hw & Hr).
    exists w. split; [intros s; by rewrite Hw |].
    intros k r Heq. by rewrite (Hr k r Heq).
  - destruct (callback_write req) as (w & Hw & Hr).
    exists w. split; [intros s; by rewrite Hw |].
    intros k r Heq. destruct (Hr k r Heq) as [Hp Ht].
    unfold is_handler_record. by rewrite Hp, Ht, orb_true_r.
  - exists None. split; [| done].
    intros s. apply stk_status_reads_only.
Qed.

Lemma write_of_unique (o : operation) (w : option (string * record)) :
  (∀ s, store_after (step Number_toString StringToNumber o s) = apply_write w s) →
  write_of Number_toString StringToNumber o = w.
Proof.
  intros Hw. unfold write_of. rewrite Hw.
  destruct w as [[k r] |]; simpl.
  - rewrite store_set_empty.
    destruct (String.eqb_spec k "__proto__") as [-> | _]; simpl; [done |].
    by rewrite map_to_list_singleton.
  - by rewrite map_to_list_empty.
Qed.

(** Every operation is the assignment [write_of] reads off it. *)
Lemma step_write_of (o : operation) (s : store) :
  store_after (step Number_toString StringToNumber o s)
  = apply_write (write_of Number_toString StringToNumber o) s.
Proof.
  destruct (step_write o) as (w & Hw & _).
  by rewrite (write_of_unique o w Hw).
Qed.

Lemma write_of_handler_record (o : operation) (k : string) (r : record) :
  write_of Number_toString StringToNumber o = Some (k, r) →
  is_handler_record r = true.
Proof.
  destruct (step_write o) as (w & Hw & Hr).
  rewrite (write_of_unique o w Hw). apply Hr.
Qed.

(** ** More on the Result Reconciler *)

(** The key of a notification's write is its identifier. *)
Lemma callback_write_key (req : request) (id : string) :
  get_opt (stkCallback_of req) "CheckoutRequestID" = JStr id →
  ∃ w : option (string * record),
    (∀ s, store_after (mpesa_callback Number_toString req s) = apply_write w s)
    ∧ (w = None ∨ ∃ r, w = Some (id, r)).
Proof.
  intros Hid. unfold mpesa_callback. fold (stkCallback_of req).
  destruct (negb (truthy (stkCallback_of req))); [exists None; split; [done | by left] |].
  rewrite Hid. simpl.
  destruct (ToString Number_toString (get_opt (stkCallback_of req) "ResultCode"));
    [| exists None; split; [done | by left]].
  destruct (strict_eq_int (get_opt (stkCallback_of req) "ResultCode") 0).
  - destruct (collect_metadata Number_toString
                (get_opt (stkCallback_of req) "CallbackMetadata"))
      as [meta | e]; simpl; [| exists None; split; [done | by left]].
    exists (Some (id, success_record meta)). split; [done | right; by eexists].
  - exists (Some (id, failure_record (get_opt (stkCallback_of req) "ResultCode")
                        (get_opt (stkCallback_of req) "ResultDesc"))).
    split; [| right; by eexists]. intros s.
    by destruct (ToString Number_toString
                   (get_opt (stkCallback_of req) "ResultDesc")).
Qed.

(** With a string identifier and the code [0], the handler is the
    collection of the metadata followed by the assignment. *)
Lemma callback_code_zero (req : request) (s : store) (cb : list (string * value))
    (id : string) (q : Q) :
  stkCallback_of req = JObj cb →
  get_own cb "CheckoutRequestID" = Some (JStr id) →
  get_own cb "ResultCode" = Some (JNum (Fin q)) →
  (q == 0)%Q →
  mpesa_callback Number_toString req s
  = match collect_metadata Number_toString (get_opt (JObj cb) "CallbackMetadata") with
    | Normal meta =>
        responded (res_json (Data acknowledgment))
          (store_set s id (success_record meta)) []
    | Throw e => threw e s []
    end.
Proof.
  intros Hcb Hid Hcode Hq.
  unfold mpesa_callback. fold (stkCallback_of req). rewrite Hcb.
  simpl. rewrite Hid, Hcode. simpl.
  rewrite (proj2 (Qeq_bool_iff q (inject_Z 0)) Hq).
  by destruct (collect_metadata Number_toString
                 (default JUndef (get_own cb "CallbackMetadata"))).
Qed.

Lemma forEach_flatten_null (items : list value) :
  JNull ∈ items →
  ∀ m, ∃ e, forEach_flatten Number_toString items m = Throw e.
Proof.
  induction items as [| item rest IH]; intros Hin m.
  - by apply not_elem_of_nil in Hin.
  - simpl. destruct (flatten_item Number_toString m item) as [m' | e] eqn:Hitem;
      simpl; [| by eexists].
    apply elem_of_cons in Hin as [<- | Hin]; [discriminate Hitem |].
    by apply IH.
Qed.

(** X1. The callback handler never calls the gateway, and whenever it
    answers, the answer is HTTP 200 with the fixed acknowledgment,
    whatever the notification said. *)
Theorem X1_callback_only_acknowledges (req : request) (s : store) :
  calls (mpesa_callback Number_toString req s) = []
  ∧ (result (mpesa_callback Number_toString req s)
     = Normal {| res_status := 200; res_body := Data acknowledgment |}
     ∨ ∃ e, result (mpesa_callback Number_toString req s) = Throw e).
Proof.
  unfold mpesa_callback.
  repeat case_match; simpl; split; eauto.
Qed.

(** X2. A notification delivered twice leaves what it left the first
    time: the second delivery gets the same answer and the store is the
    one after the first. *)
Theorem X2_duplicate_notification (req : request) (s : store) :
  mpesa_callback Number_toString req
    (store_after (mpesa_callback Number_toString req s))
  = mpesa_callback Number_toString req s.
Proof.
  destruct (callback_write req) as (w & Hw & Hr).
  rewrite (Hw s). simpl. rewrite (Hw (apply_write w s)).
  f_equal. destruct w as [[k r] |]; simpl; [| done].
  apply store_set_twice. by destruct (Hr k r).
Qed.

(** X3. Notifications for different identifiers commute: delivered in
    either order they leave the same store. *)
Theorem X3_notifications_commute (req1 req2 : request) (id1 id2 : string)
    (s : store) :
  get_opt (stkCallback_of req1) "CheckoutRequestID" = JStr id1 →
  get_opt (stkCallback_of req2) "CheckoutRequestID" = JStr id2 →
  id1 ≠ id2 →
  store_after (mpesa_callback Number_toString req2
                 (store_after (mpesa_callback Number_toString req1 s)))
  = store_after (mpesa_callback Number_toString req1
                   (store_after (mpesa_callback Number_toString req2 s))).
Proof.
  intros Hid1 Hid2 Hne.
  destruct (callback_write_key req1 id1 Hid1) as (w1 & Hw1 & Hk1).
  destruct (callback_write_key req2 id2 Hid2) as (w2 & Hw2 & Hk2).
  rewrite !Hw1, !Hw2.
  destruct Hk1 as [-> | (r1 & ->)], Hk2 as [-> | (r2 & ->)]; simpl; try done.
  symmetry. by apply store_set_commute.
Qed.

(** X4. A success notification whose metadata [Item] is present but is
    not a list, or is a list holding a [null], makes the handler throw
    inside [forEach]: nothing is stored and no acknowledgment is sent. *)
Theorem X4_malformed_metadata_throws (req : request) (s : store)
    (cb : list (string * value)) (id : string) (q : Q) :
  stkCallback_of req = JObj cb →
  get_own cb "CheckoutRequestID" = Some (JStr id) →
  get_own cb "ResultCode" = Some (JNum (Fin q)) →
  (q == 0)%Q →
  metadata_items cb = None
  ∨ (∃ items, metadata_items cb = Some items ∧ JNull ∈ items) →
  (∃ e, result (mpesa_callback Number_toString req s) = Throw e)
  ∧ store_after (mpesa_callback Number_toString req s) = s.
Proof.
  intros Hcb Hid Hcode Hq Hbad.
  rewrite (callback_code_zero req s cb id q) by done.
  assert (∃ e, collect_metadata Number_toString
                 (get_opt (JObj cb) "CallbackMetadata") = Throw e) as [e ->].
  { destruct Hbad as [Hnone | (items & Hitems & Hnull)].
    - unfold metadata_items in Hnone. unfold collect_metadata.
      destruct (get_opt (JObj cb) "CallbackMetadata")
        as [| | b | n | t | l | props]; simpl in *; try discriminate.
      destruct (default JUndef (get_own props "Item"));
        try discriminate; by eexists.
    - rewrite (collect_metadata_items Number_toString cb items Hitems).
      by apply forEach_flatten_null. }
  split; [by exists e | done].
Qed.

(** X5. A failure notification whose description cannot be printed
    (the last [console.log] throws on it) is not acknowledged, but its
    record is stored all the same: the assignment comes first. *)
Theorem X5_failure_stored_before_log (req : request) (s : store)
    (cb : list (string * value)) (id : string) (q : Q) (e : error) :
  stkCallback_of req = JObj cb →
  get_own cb "CheckoutRequestID" = Some (JStr id) →
  get_own cb "ResultCode" = Some (JNum (Fin q)) →
  ¬ (q == 0)%Q →
  ToString Number_toString (get_opt (JObj cb) "ResultDesc") = Throw e →
  result (mpesa_callback Number_toString req s) = Throw e
  ∧ stored (store_after (mpesa_callback Number_toString req s)) id
    = Some (failure_record (JNum (Fin q)) (get_opt (JObj cb) "ResultDesc")).
Proof.
  intros Hcb Hid Hcode Hq Hdesc.
  rewrite (callback_failure Number_toString req s cb id q) by done.
  split; [| apply stored_set_eq].
  unfold mpesa_callback. fold (stkCallback_of req). rewrite Hcb.
  simpl. rewrite Hid, Hcode. simpl.
  destruct (Qeq_bool q (inject_Z 0)) eqn:Hz.
  - apply Qeq_bool_iff in Hz. contradiction.
  - simpl in Hdesc. by rewrite Hdesc.
Qed.

(** X6. A result object that names neither an identifier nor a code is
    recorded as a failed payment under the key ["undefined"]. *)
Theorem X6_nameless_result_recorded (req : request) (s : store)
    (cb : list (string * value)) :
  stkCallback_of req = JObj cb →
  get_own cb "CheckoutRequestID" = None →
  get_own cb "ResultCode" = None →
  stored (store_after (mpesa_callback Number_toString req s)) "undefined"
  = Some [ ("status", JStr "failed");
           ("message", get_opt (JObj cb) "ResultDesc") ].
Proof.
  intros Hcb Hid Hcode.
  unfold mpesa_callback. fold (stkCallback_of req). rewrite Hcb.
  simpl. rewrite Hid, Hcode. simpl.
  destruct (ToString Number_toString (default JUndef (get_own cb "ResultDesc")));
    apply stored_set_eq.
Qed.

(** ** More on the Status Reader *)

(** X7. A poll for a non-empty identifier that holds a record answers
    that record with HTTP 200. *)
Theorem X7_poll_answers_stored_record (req : request) (s : store)
    (id : string) (r : record) :
  polls req id →
  id ≠ "" →
  stored s id = Some r →
  has_own r "__proto__" = false →
  result (stk_status Number_toString req s)
  = Normal {| res_status := 200; res_body := Data (JObj r) |}.
Proof.
  unfold polls. intros Hpoll Hid Hstored Hr.
  unfold stk_status. rewrite Hpoll. cbn -[store_get].
  apply String.eqb_neq in Hid. rewrite Hid. cbn -[store_get].
  by rewrite (stored_store_get s id r).
Qed.

(** X8. A poll without [checkoutId], or whose [checkoutId] is the empty
    string, is answered HTTP 400 whatever the store holds, and leaves
    the store as it was. *)
Theorem X8_poll_without_identifier (req : request) (s : store) :
  get_own (req_query req) "checkoutId" = None
  ∨ get_own (req_query req) "checkoutId" = Some (JStr "") →
  stk_status Number_toString req s
  = {| result :=
         Normal {| res_status := 400;
                   res_body := Data (JObj [("error", JStr "checkoutId required")]) |};
       store_after := s;
       calls := [] |}.
Proof.
  intros [Hq | Hq]; unfold stk_status; by rewrite Hq.
Qed.

(** X9. Polls never write: after any sequence of polls the store is the
    one before. *)
Theorem X9_polls_leave_store (reqs : list request) (s : store) :
  run Number_toString StringToNumber (Poll <$> reqs) s = s.
Proof.
  induction reqs as [| req reqs IH] in s |- *; [done |].
  cbn [fmap list_fmap]. unfold run in *. simpl.
  rewrite stk_status_reads_only. apply IH.
Qed.

(** ** Sequences of operations *)

Lemma stored_apply_write (w : option (string * record)) (s : store) (id : string) :
  stored (apply_write w s) id = after_write w s id.
Proof.
  destruct w as [[k r] |]; [apply stored_after_write | done].
Qed.

Lemma run_cons (o : operation) (ops : list operation) (s : store) :
  run Number_toString StringToNumber (o :: ops) s
  = run Number_toString StringToNumber ops
      (store_after (step Number_toString StringToNumber o s)).
Proof. reflexivity. Qed.

Lemma stored_run (ops : list operation) (s : store) (id : string) :
  stored (run Number_toString StringToNumber ops s) id
  = match last_write Number_toString StringToNumber ops id with
    | Some r => Some r
    | None => stored s id
    end.
Proof.
  induction ops as [| o ops IH] in s |- *; [done |].
  rewrite run_cons, IH. cbn [last_write].
  destruct (last_write _ _ ops id); [done |].
  rewrite step_write_of, stored_apply_write. unfold after_write.
  destruct (write_of _ _ o) as [[k r] |]; [| done].
  by destruct (String.eqb k id).
Qed.

Lemma last_write_handler_record (ops : list operation) (id : string) (r : record) :
  last_write Number_toString StringToNumber ops id = Some r →
  is_handler_record r = true.
Proof.
  induction ops as [| o ops IH]; [done |].
  cbn [last_write]. destruct (last_write _ _ ops id); [by intros [= <-]; apply IH |].
  destruct (write_of _ _ o) as [[k r'] |] eqn:Hw; [| done].
  destruct (String.eqb k id); [| done].
  intros [= <-]. by eapply write_of_handler_record.
Qed.

(** X10. Over a whole sequence of initiations, notifications and polls,
    the record of an identifier is the one written by the last
    operation that wrote under it, and the record held at the start when
    none did. *)
Theorem X10_sequence_last_write_wins (ops : list operation) (s : store)
    (id : string) :
  stored (run Number_toString StringToNumber ops s) id
  = match last_write Number_toString StringToNumber ops id with
    | Some r => Some r
    | None => stored s id
    end.
Proof. apply stored_run. Qed.

(** X11. Every record a sequence of operations leaves in the store of a
    freshly started server is one the handlers write: its status is
    [pending], [success], [failed] or [cancelled], and it has no
    property named [__proto__]. *)
Theorem X11_reachable_records (ops : list operation) (id : string) (r : record) :
  stored (run Number_toString StringToNumber ops empty_store) id = Some r →
  has_own r "__proto__" = false
  ∧ (is_status r "pending" = true ∨ is_status r "success" = true
     ∨ is_status r "failed" = true ∨ is_status r "cancelled" = true).
Proof.
  rewrite stored_run, stored_empty.
  destruct (last_write _ _ ops id) as [r' |] eqn:Hlast; [| done].
  intros [= <-]. apply last_write_handler_record in Hlast.
  unfold is_handler_record, is_terminal in Hlast.
  apply andb_prop in Hlast as [Hp Hst]. apply negb_true_iff in Hp.
  split; [done |].
  repeat (apply orb_prop in Hst as [Hst | Hst]); auto.
Qed.

(** ** More on the Request Initiator *)

Lemma submit_succeeds (env : environment) (phone amount description data : value) :
  submission_succeeds Number_toString StringToNumber env phone amount description
    data →
  (submit Number_toString StringToNumber env phone amount description).1
  = Normal data.
Proof.
  unfold submission_succeeds, submit, getTimestampAndPassword.
  intros (token & Amount & bearer & -> & -> & -> & Hpost). simpl. exact Hpost.
Qed.

(** X12. A request that passes the guard and that the gateway accepts
    with a [CheckoutRequestID]: the gateway's answer is forwarded as it
    came with HTTP 200, and the pending record is held under the
    identifier. *)
Theorem X12_accepted_push_registered (env : environment) (req : request)
    (s : store) (fields answer : list (string * value)) (id : string) :
  req_body req = JObj fields →
  truthy (get_opt (JObj fields) "phone") = true →
  truthy (get_opt (JObj fields) "amount") = true →
  submission_succeeds Number_toString StringToNumber env
    (get_opt (JObj fields) "phone") (get_opt (JObj fields) "amount")
    (get_opt (JObj fields) "description") (JObj answer) →
  get_own answer "CheckoutRequestID" = Some (JStr id) →
  id ≠ "" →
  result (stk_push Number_toString StringToNumber env req s)
  = Normal {| res_status := 200; res_body := Data (JObj answer) |}
  ∧ stored (store_after (stk_push Number_toString StringToNumber env req s)) id
    = Some pending_record.
Proof.
  intros Hbody Hphone Hamount Hok Hid Hne.
  rewrite stk_push_accepted by (by rewrite Hbody).
  rewrite Hbody. apply submit_succeeds in Hok.
  destruct (submit _ _ _ _ _ _) as [ans cs]. simpl in Hok. subst ans.
  simpl. rewrite Hid. simpl.
  apply String.eqb_neq in Hne. rewrite Hne. simpl.
  split; [done | apply stored_set_eq].
Qed.

(** X13. Pending until notified: after such an accepted push, whatever
    sequence of operations follows, as long as none writes under the
    identifier, a poll for it answers the pending record. *)
Theorem X13_pending_until_notified (env : environment) (req : request)
    (s : store) (fields answer : list (string * value)) (id : string)
    (ops : list operation) (poll : request) :
  req_body req = JObj fields →
  truthy (get_opt (JObj fields) "phone") = true →
  truthy (get_opt (JObj fields) "amount") = true →
  submission_succeeds Number_toString StringToNumber env
    (get_opt (JObj fields) "phone") (get_opt (JObj fields) "amount")
    (get_opt (JObj fields) "description") (JObj answer) →
  get_own answer "CheckoutRequestID" = Some (JStr id) →
  id ≠ "" →
  last_write Number_toString StringToNumber ops id = None →
  polls poll id →
  result
    (stk_status Number_toString poll
       (run Number_toString StringToNumber (Initiate env req :: ops) s))
  = Normal {| res_status := 200; res_body := Data (JObj pending_record) |}.
Proof.
  intros Hbody Hphone Hamount Hok Hid Hne Hquiet Hpoll.
  assert (stored (run Number_toString StringToNumber (Initiate env req :: ops) s) id
          = Some pending_record) as Hstored.
  { rewrite run_cons, stored_run, Hquiet. simpl.
    rewrite stk_push_accepted by (by rewrite Hbody).
    rewrite Hbody. apply submit_succeeds in Hok.
    destruct (submit _ _ _ _ _ _) as [ans cs]. simpl in Hok. subst ans.
    simpl. rewrite Hid. simpl.
    apply String.eqb_neq in Hne. rewrite Hne. simpl. apply stored_set_eq. }
  unfold polls in Hpoll. unfold stk_status. rewrite Hpoll. cbn -[store_get].
  apply String.eqb_neq in Hne. rewrite Hne. cbn -[store_get].
  by rewrite (stored_store_get _ id pending_record).
Qed.

(** X14. A push the gateway accepts without a [CheckoutRequestID] (none,
    or a falsy one) is forwarded with HTTP 200 and leaves no record. *)
Theorem X14_accepted_push_without_identifier (env : environment) (req : request)
    (s : store) (fields answer : list (string * value)) :
  req_body req = JObj fields →
  truthy (get_opt (JObj fields) "phone") = true →
  truthy (get_opt (JObj fields) "amount") = true →
  submission_succeeds Number_toString StringToNumber env
    (get_opt (JObj fields) "phone") (get_opt (JObj fields) "amount")
    (get_opt (JObj fields) "description") (JObj answer) →
  truthy (get_opt (JObj answer) "CheckoutRequestID") = false →
  result (stk_push Number_toString StringToNumber env req s)
  = Normal {| res_status := 200; res_body := Data (JObj answer) |}
  ∧ store_after (stk_push Number_toString StringToNumber env req s) = s.
Proof.
  intros Hbody Hphone Hamount Hok Hid.
  rewrite stk_push_accepted by (by rewrite Hbody).
  rewrite Hbody. apply submit_succeeds in Hok.
  destruct (submit _ _ _ _ _ _) as [ans cs]. simpl in Hok. subst ans.
  simpl in *. by rewrite Hid.
Qed.

(** X15. A request without a body ([req.body] is [undefined] or [null])
    is not answered by the handler: the destructuring throws before the
    guard, no call is made and the store is the one before. *)
Theorem X15_missing_body_throws (env : environment) (req : request) (s : store) :
  req_body req = JUndef ∨ req_body req = JNull →
  (∃ e, result (stk_push Number_toString StringToNumber env req s) = Throw e)
  ∧ calls (stk_push Number_toString StringToNumber env req s) = []
  ∧ store_after (stk_push Number_toString StringToNumber env req s) = s.
Proof.
  intros [Hbody | Hbody]; unfold stk_push; rewrite Hbody; simpl; eauto.
Qed.

Lemma get_normal (v x : value) (k : string) :
  get v k = Normal x → x = get_opt v k.
Proof. destruct v; simpl; congruence. Qed.

(** X16. The gateway calls of one request: none, or the token request
    alone, or the token request followed by one push. A push is only
    placed with a token obtained for this request, is authorised by
    ["Bearer "] and that token, names the caller's phone as both [PartyA]
    and [PhoneNumber], and the configured shortcode as both
    [BusinessShortCode] and [PartyB]. *)
Theorem X16_gateway_calls (env : environment) (req : request) (s : store) :
  let out := stk_push Number_toString StringToNumber env req s in
  calls out = []
  ∨ calls out = [OAuthRequest]
  ∨ ∃ token bearer payload,
      getAccessToken env = Normal token
      ∧ ToString Number_toString token = Normal bearer
      ∧ calls out = [OAuthRequest; StkPushRequest payload ("Bearer " ++ bearer)]
      ∧ get_opt payload "PartyA" = get_opt (req_body req) "phone"
      ∧ get_opt payload "PhoneNumber" = get_opt (req_body req) "phone"
      ∧ get_opt payload "BusinessShortCode" = env_value (SHORTCODE env)
      ∧ get_opt payload "PartyB" = env_value (SHORTCODE env).
Proof.
  intros out. subst out. unfold stk_push.
  destruct (get (req_body req) "phone") as [phone | e] eqn:Hphone; [| by left].
  apply get_normal in Hphone. subst phone.
  destruct (negb _ || negb _); [by left |].
  unfold submit, getTimestampAndPassword.
  destruct (getAccessToken env) as [token | e];
    [| right; left; simpl; by repeat case_match].
  destruct (Math_ceil _ _ _) as [Amount | e]; simpl;
    [| right; left; by repeat case_match].
  destruct (ToString Number_toString token) as [bearer | e] eqn:Hbearer; simpl;
    [| right; left; by repeat case_match].
  right; right. eexists token, bearer, _.
  split; [done |]. split; [done |].
  split; [by repeat case_match |]. done.
Qed.

(** X17. The store changes only on success: unless the gateway answered
    the push with a truthy [CheckoutRequestID], in which case the answer
    is forwarded with HTTP 200 and the pending record assigned under that
    identifier, the store is the one before (so no 400, no 500 and no
    exception leaves a record). *)
Theorem X17_record_only_on_success (env : environment) (req : request)
    (s : store) :
  let out := stk_push Number_toString StringToNumber env req s in
  store_after out = s
  ∨ ∃ data k payload authorization,
      result out = Normal {| res_status := 200; res_body := Data data |}
      ∧ store_after out = store_set s k pending_record
      ∧ calls out = [OAuthRequest; StkPushRequest payload authorization]
      ∧ stkpush_post env payload authorization = Normal data
      ∧ truthy (get_opt data "CheckoutRequestID") = true
      ∧ ToPropertyKey Number_toString (get_opt data "CheckoutRequestID")
        = Normal k.
Proof.
  intros out. subst out. unfold stk_push.
  destruct (get (req_body req) "phone") as [phone | e]; [| by left].
  destruct (negb _ || negb _); [by left |].
  unfold submit, getTimestampAndPassword.
  destruct (getAccessToken env) as [token | e]; [| by left].
  destruct (Math_ceil _ _ _) as [Amount | e]; simpl; [| by left].
  destruct (ToString Number_toString token) as [bearer | e]; simpl; [| by left].
  destruct (stkpush_post env _ _) as [data | e] eqn:Hpost; simpl; [| by left].
  destruct (get data "CheckoutRequestID") as [id | e] eqn:Hid; simpl; [| by left].
  apply get_normal in Hid. subst id.
  destruct (truthy (get_opt data "CheckoutRequestID")) eqn:Htruthy; [| by left].
  destruct (ToPropertyKey Number_toString (get_opt data "CheckoutRequestID"))
    as [k | e] eqn:Hk; simpl; [| by left].
  right. by eexists data, k, _, _.
Qed.

(** X18. A whole-number amount reaches the gateway unchanged. *)
Theorem X18_whole_amount_unchanged (env : environment) (req : request)
    (s : store) (fields : list (string * value)) (q : Q) (z : Z) :
  req_body req = JObj fields →
  truthy (get_opt (JObj fields) "phone") = true →
  get_own fields "amount" = Some (JNum (Fin q)) →
  (q == inject_Z z)%Q →
  z ≠ 0%Z →
  ∀ payload authorization,
    StkPushRequest payload authorization
    ∈ calls (stk_push Number_toString StringToNumber env req s) →
    get_opt payload "Amount" = JNum (Fin (inject_Z z)).
Proof.
  intros Hbody Hphone Hamount Hq Hz payload authorization.
  assert (get_opt (JObj fields) "amount" = JNum (Fin q)) as Hq'
    by (simpl; by rewrite Hamount).
  assert (truthy (get_opt (JObj fields) "amount") = true) as Htruthy.
  { rewrite Hq'. simpl. destruct (Qeq_bool q 0) eqn:Hzero; [| done].
    apply Qeq_bool_iff in Hzero. rewrite Hq in Hzero.
    apply (inject_Z_injective z 0) in Hzero. contradiction. }
  rewrite stk_push_accepted_calls by (by rewrite Hbody).
  rewrite Hbody, Hq', submit_calls. unfold getTimestampAndPassword.
  assert (Qceiling q = z) as Hceil by (by rewrite Hq, Qceiling_Z).
  destruct (token ← getAccessToken env; ToString Number_toString token)
    as [bearer | e]; intros Hin.
  - apply elem_of_cons in Hin as [[=] | Hin].
    apply list_elem_of_singleton in Hin as [= -> _]. simpl. by rewrite Hceil.
  - apply list_elem_of_singleton in Hin. discriminate.
Qed.

(** X19. An amount that is an object carrying its own [toString] passes
    the guard but cannot be converted by [Math.ceil]: the token has been
    requested, no push is placed, and the answer is HTTP 500 with the
    fallback message. *)
Theorem X19_unconvertible_amount (env : environment) (req : request)
    (s : store) (fields props : list (string * value)) (token : value) :
  req_body req = JObj fields →
  truthy (get_opt (JObj fields) "phone") = true →
  get_own fields "amount" = Some (JObj props) →
  has_own props "toString" = true →
  getAccessToken env = Normal token →
  stk_push Number_toString StringToNumber env req s
  = {| result :=
         Normal {| res_status := 500;
                   res_body := Data (JObj [("errorMessage", fallback_message)]) |};
       store_after := s;
       calls := [OAuthRequest] |}.
Proof.
  intros Hbody Hphone Hamount Hown Htoken.
  assert (get_opt (JObj fields) "amount" = JObj props) as Hq'
    by (simpl; by rewrite Hamount).
  rewrite stk_push_accepted by (rewrite Hbody; try done; by rewrite Hq').
  rewrite Hbody, Hq'.
  unfold submit, getTimestampAndPassword, Math_ceil. rewrite Htoken. simpl.
  by rewrite Hown.
Qed.

(** X20. The token is not checked: when the token endpoint answers a
    body without [access_token], a request that passes the guard with a
    numeric amount is still pushed, authorised by ["Bearer undefined"]. *)
Theorem X20_missing_token_still_pushed (env : environment) (req : request)
    (s : store) (fields body : list (string * value)) (n : number) :
  req_body req = JObj fields →
  truthy (get_opt (JObj fields) "phone") = true →
  get_own fields "amount" = Some (JNum n) →
  number_truthy n = true →
  oauth_get env = Normal (JObj body) →
  get_own body "access_token" = None →
  ∃ payload,
    calls (stk_push Number_toString StringToNumber env req s)
    = [OAuthRequest; StkPushRequest payload "Bearer undefined"].
Proof.
  intros Hbody Hphone Hamount Hn Hoauth Htoken.
  assert (get_opt (JObj fields) "amount" = JNum n) as Hq'
    by (simpl; by rewrite Hamount).
  rewrite stk_push_accepted_calls by (rewrite Hbody; try done; by rewrite Hq').
  rewrite Hbody, Hq', submit_calls.
  unfold getAccessToken, getTimestampAndPassword. rewrite Hoauth. simpl.
  rewrite Htoken. simpl. by eexists.
Qed.

(** ** The store is not a map *)


End FurtherProperties.

(** ** The timestamp *)

Lemma strip_non_digits_app (a b : string) :
  strip_non_digits (a ++ b) = strip_non_digits a ++ strip_non_digits b.
Proof.
  induction a as [| c a IH]; [done |].
  simpl. destruct (is_digit c); simpl; by rewrite IH.
Qed.

Lemma strip_all_digits (a : string) :
  all_digits a = true → strip_non_digits a = a.
Proof.
  induction a as [| c a IH]; [done |].
  simpl. intros H. apply andb_prop in H as [-> H]. by rewrite IH.
Qed.

Lemma all_digits_strip (a : string) : all_digits (strip_non_digits a) = true.
Proof.
  induction a as [| c a IH]; [done |].
  simpl. destruct (is_digit c) eqn:Hc; [| done]. simpl. by rewrite Hc.
Qed.

Lemma substring_app (a b : string) (n : nat) :
  String.substring 0 (String.length a + n) (a ++ b)
  = a ++ String.substring 0 n b.
Proof.
  induction a as [| c a IH]; [done |].
  simpl. by rewrite IH.
Qed.

Lemma substring_all_digits (n : nat) (a : string) :
  all_digits a = true → all_digits (String.substring 0 n a) = true.
Proof.
  induction n as [| n IH] in a |- *; destruct a as [| c a]; try done.
  simpl. intros H. apply andb_prop in H as [-> H]. by apply IH.
Qed.

Lemma substring_length_le (n : nat) (a : string) :
  (String.length (String.substring 0 n a) ≤ n)%nat.
Proof.
  induction n as [| n IH] in a |- *; destruct a as [| c a]; simpl; try lia.
  specialize (IH a). lia.
Qed.

Lemma string_app_empty (a : string) : a ++ "" = a.
Proof.
  induction a as [| c a IH]; [done |].
  change (String c a ++ "") with (String c (a ++ "")). by rewrite IH.
Qed.

Lemma substring_none (a : string) : String.substring 0 0 a = "".
Proof. by destruct a. Qed.

(** X22. When the clock reads a four-digit year, so that [toISOString]
    gives [YYYY-MM-DDTHH:mm:ss.sssZ], the timestamp is [YYYYMMDDHHmmss]
    (the milliseconds are cut), and the password is the base64 of
    shortcode, passkey and that timestamp. *)
Theorem X22_timestamp_of_clock (env : environment)
    (year month day hour minute second millis : string) :
  is_iso_fields year month day hour minute second millis = true →
  clock_digits env
  = timestamp_of_iso (iso_string year month day hour minute second millis) →
  let timestamp := year ++ month ++ day ++ hour ++ minute ++ second in
  getTimestampAndPassword env
  = (timestamp,
     base64 env (env_text (SHORTCODE env) ++ env_text (PASSKEY env) ++ timestamp)).
Proof.
  intros Hfields Hclock timestamp.
  assert (clock_digits env = timestamp) as Hts.
  { rewrite Hclock. unfold is_iso_fields in Hfields.
    repeat (apply andb_prop in Hfields as [Hfields ?]).
    repeat match goal with
           | H : (_ =? _)%nat = true |- _ => apply Nat.eqb_eq in H
           end.
    unfold timestamp_of_iso, iso_string.
    rewrite !strip_non_digits_app.
    rewrite (strip_all_digits year), (strip_all_digits month),
      (strip_all_digits day), (strip_all_digits hour),
      (strip_all_digits minute), (strip_all_digits second) by done.
    change (strip_non_digits "-") with "".
    change (strip_non_digits "T") with "".
    change (strip_non_digits ":") with "".
    change (strip_non_digits ".") with "".
    change (strip_non_digits "Z") with "".
    repeat match goal with
           | |- context [ "" ++ ?x ] => change ("" ++ x) with x
           end.
    replace 14%nat
      with (String.length year + (String.length month + (String.length day
            + (String.length hour + (String.length minute
               + (String.length second + 0)))))) by lia.
    rewrite !substring_app.
    by rewrite substring_none, string_app_empty. }
  unfold getTimestampAndPassword. by rewrite Hts.
Qed.

(** X23. Whatever the clock reads, the timestamp is at most fourteen
    characters, all of them digits. *)
Theorem X23_timestamp_shape (iso : string) :
  (String.length (timestamp_of_iso iso) ≤ 14)%nat
  ∧ all_digits (timestamp_of_iso iso) = true.
Proof.
  unfold timestamp_of_iso. split.
  - apply substring_length_le.
  - apply substring_all_digits, all_digits_strip.
Qed.

(** * Closed instances of the further properties *)

(** The success for [ws_1] and the failure for [ws_2], in both orders. *)
Lemma X3_witness :
  (get_opt (stkCallback_of (notification paid_result)) "CheckoutRequestID"
   = JStr "ws_1"
   ∧ get_opt (stkCallback_of (notification failed_result_ws_2)) "CheckoutRequestID"
     = JStr "ws_2"
   ∧ "ws_1" ≠ "ws_2")
  ∧ store_after
      (mpesa_callback decimal_toString (notification failed_result_ws_2)
         (store_after
            (mpesa_callback decimal_toString (notification paid_result)
               empty_store)))
    = store_after
        (mpesa_callback decimal_toString (notification paid_result)
           (store_after
              (mpesa_callback decimal_toString (notification failed_result_ws_2)
                 empty_store))).
Proof.
  split.
  - repeat split; try reflexivity. intros H; discriminate H.
  - apply (X3_notifications_commute decimal_toString
             (notification paid_result) (notification failed_result_ws_2)
             "ws_1" "ws_2" empty_store);
      try reflexivity.
    intros H; discriminate H.
Defined.

(** The success notification whose [Item] is [{}]. *)
Lemma X4_witness :
  (stkCallback_of (notification odd_items_result) = JObj odd_items_result
   ∧ get_own odd_items_result "CheckoutRequestID" = Some (JStr "ws_1")
   ∧ get_own odd_items_result "ResultCode" = Some (JNum (Fin 0))
   ∧ (0 == 0)%Q
   ∧ (metadata_items odd_items_result = None
      ∨ ∃ items, metadata_items odd_items_result = Some items ∧ JNull ∈ items))
  ∧ (∃ e, result (mpesa_callback decimal_toString (notification odd_items_result)
                    empty_store) = Throw e)
  ∧ store_after (mpesa_callback decimal_toString (notification odd_items_result)
                   empty_store) = empty_store.
Proof.
  split.
  - repeat split; try reflexivity. left; reflexivity.
  - apply (X4_malformed_metadata_throws decimal_toString
             (notification odd_items_result) empty_store odd_items_result "ws_1" 0);
      try reflexivity.
    left; reflexivity.
Defined.

(** The failure whose description is [{ toString: "x" }]. *)
Lemma X5_witness :
  let e := TypeError "Cannot convert object to primitive value" in
  (stkCallback_of (notification odd_description_result) = JObj odd_description_result
   ∧ get_own odd_description_result "CheckoutRequestID" = Some (JStr "ws_1")
   ∧ get_own odd_description_result "ResultCode" = Some (JNum (Fin 1))
   ∧ ¬ (1 == 0)%Q
   ∧ ToString decimal_toString (get_opt (JObj odd_description_result) "ResultDesc")
     = Throw e)
  ∧ result (mpesa_callback decimal_toString (notification odd_description_result)
              empty_store) = Throw e
  ∧ stored
      (store_after (mpesa_callback decimal_toString
                      (notification odd_description_result) empty_store))
      "ws_1"
    = Some (failure_record (JNum (Fin 1))
              (get_opt (JObj odd_description_result) "ResultDesc")).
Proof.
  split.
  - repeat split; try reflexivity. intros H; discriminate H.
  - apply (X5_failure_stored_before_log decimal_toString
             (notification odd_description_result) empty_store
             odd_description_result "ws_1" 1);
      try reflexivity.
    intros H; discriminate H.
Defined.

(** The notification [{ Body: { stkCallback: {} } }]. *)
Lemma X6_witness :
  (stkCallback_of (notification []) = JObj []
   ∧ get_own [] "CheckoutRequestID" = None
   ∧ get_own [] "ResultCode" = None)
  ∧ stored (store_after (mpesa_callback decimal_toString (notification [])
                           empty_store))
      "undefined"
    = Some [("status", JStr "failed"); ("message", get_opt (JObj []) "ResultDesc")].
Proof.
  split.
  - repeat split; reflexivity.
  - apply (X6_nameless_result_recorded decimal_toString (notification [])
             empty_store []);
      reflexivity.
Defined.

(** A poll for [ws_1] on a store that holds its pending record. *)
Lemma X7_witness :
  let s := store_set empty_store "ws_1" pending_record in
  (polls (query_of "ws_1") "ws_1"
   ∧ "ws_1" ≠ ""
   ∧ stored s "ws_1" = Some pending_record
   ∧ has_own pending_record "__proto__" = false)
  ∧ result (stk_status decimal_toString (query_of "ws_1") s)
    = Normal {| res_status := 200; res_body := Data (JObj pending_record) |}.
Proof.
  split.
  - repeat split; try reflexivity. intros H; discriminate H.
  - apply (X7_poll_answers_stored_record decimal_toString (query_of "ws_1")
             (store_set empty_store "ws_1" pending_record) "ws_1" pending_record);
      try reflexivity.
    intros H; discriminate H.
Defined.

(** A poll without a query string. *)
Lemma X8_witness :
  (get_own (req_query (body_of JUndef)) "checkoutId" = None
   ∨ get_own (req_query (body_of JUndef)) "checkoutId" = Some (JStr ""))
  ∧ stk_status decimal_toString (body_of JUndef) empty_store
    = {| result :=
           Normal {| res_status := 400;
                     res_body := Data (JObj [("error", JStr "checkoutId required")]) |};
         store_after := empty_store;
         calls := [] |}.
Proof.
  split.
  - left; reflexivity.
  - apply (X8_poll_without_identifier decimal_toString (body_of JUndef) empty_store).
    left; reflexivity.
Defined.

(** The record left by the cancellation of [ws_1]. *)
Lemma X11_witness :
  let r := [ ("status", JStr "cancelled");
             ("message", JStr "Request cancelled by user") ] in
  stored (run decimal_toString no_numeric_string
            [Reconcile (notification cancelled_result)] empty_store) "ws_1"
  = Some r
  ∧ has_own r "__proto__" = false
  ∧ (is_status r "pending" = true ∨ is_status r "success" = true
     ∨ is_status r "failed" = true ∨ is_status r "cancelled" = true).
Proof.
  split.
  - reflexivity.
  - apply (X11_reachable_records decimal_toString no_numeric_string
             [Reconcile (notification cancelled_result)] "ws_1").
    reflexivity.
Defined.

(** The push of 10.4 that the gateway accepts as [ws_1]. *)
Lemma X12_witness :
  let fields := [("phone", JStr "254700000000"); ("amount", JNum (Fin ten_point_four))] in
  let answer := [("CheckoutRequestID", JStr "ws_1"); ("ResponseCode", JStr "0")] in
  let out := stk_push decimal_toString no_numeric_string accepting_gateway
               (push_request ten_point_four) empty_store in
  (req_body (push_request ten_point_four) = JObj fields
   ∧ truthy (get_opt (JObj fields) "phone") = true
   ∧ truthy (get_opt (JObj fields) "amount") = true
   ∧ submission_succeeds decimal_toString no_numeric_string accepting_gateway
       (get_opt (JObj fields) "phone") (get_opt (JObj fields) "amount")
       (get_opt (JObj fields) "description") (JObj answer)
   ∧ get_own answer "CheckoutRequestID" = Some (JStr "ws_1")
   ∧ "ws_1" ≠ "")
  ∧ result out = Normal {| res_status := 200; res_body := Data (JObj answer) |}
  ∧ stored (store_after out) "ws_1" = Some pending_record.
Proof.
  assert (submission_succeeds decimal_toString no_numeric_string accepting_gateway
            (JStr "254700000000") (JNum (Fin ten_point_four)) JUndef
            (JObj [("CheckoutRequestID", JStr "ws_1"); ("ResponseCode", JStr "0")]))
    as Hok.
  { exists (JStr "token"), (Fin 11), "token". repeat split; reflexivity. }
  split.
  - repeat split; try reflexivity; [exact Hok | intros H; discriminate H].
  - apply (X12_accepted_push_registered decimal_toString no_numeric_string
             accepting_gateway (push_request ten_point_four) empty_store
             [("phone", JStr "254700000000"); ("amount", JNum (Fin ten_point_four))]
             [("CheckoutRequestID", JStr "ws_1"); ("ResponseCode", JStr "0")]
             "ws_1");
      try reflexivity; [exact Hok | intros H; discriminate H].
Defined.

(** That push, then a failure for [ws_2] and a poll: [ws_1] is still
    pending. *)
Lemma X13_witness :
  let fields := [("phone", JStr "254700000000"); ("amount", JNum (Fin ten_point_four))] in
  let answer := [("CheckoutRequestID", JStr "ws_1"); ("ResponseCode", JStr "0")] in
  let ops := [Reconcile (notification failed_result_ws_2); Poll (query_of "ws_1")] in
  (req_body (push_request ten_point_four) = JObj fields
   ∧ truthy (get_opt (JObj fields) "phone") = true
   ∧ truthy (get_opt (JObj fields) "amount") = true
   ∧ submission_succeeds decimal_toString no_numeric_string accepting_gateway
       (get_opt (JObj fields) "phone") (get_opt (JObj fields) "amount")
       (get_opt (JObj fields) "description") (JObj answer)
   ∧ get_own answer "CheckoutRequestID" = Some (JStr "ws_1")
   ∧ "ws_1" ≠ ""
   ∧ last_write decimal_toString no_numeric_string ops "ws_1" = None
   ∧ polls (query_of "ws_1") "ws_1")
  ∧ result
      (stk_status decimal_toString (query_of "ws_1")
         (run decimal_toString no_numeric_string
            (Initiate accepting_gateway (push_request ten_point_four) :: ops)
            empty_store))
    = Normal {| res_status := 200; res_body := Data (JObj pending_record) |}.
Proof.
  assert (submission_succeeds decimal_toString no_numeric_string accepting_gateway
            (JStr "254700000000") (JNum (Fin ten_point_four)) JUndef
            (JObj [("CheckoutRequestID", JStr "ws_1"); ("ResponseCode", JStr "0")]))
    as Hok.
  { exists (JStr "token"), (Fin 11), "token". repeat split; reflexivity. }
  split.
  - repeat split; try reflexivity; [exact Hok | intros H; discriminate H].
  - apply (X13_pending_until_notified decimal_toString no_numeric_string
             accepting_gateway (push_request ten_point_four) empty_store
             [("phone", JStr "254700000000"); ("amount", JNum (Fin ten_point_four))]
             [("CheckoutRequestID", JStr "ws_1"); ("ResponseCode", JStr "0")]
             "ws_1"
             [Reconcile (notification failed_result_ws_2); Poll (query_of "ws_1")]
             (query_of "ws_1"));
      try reflexivity; [exact Hok | intros H; discriminate H].
Defined.

(** The push of 10.4 that the gateway accepts without naming it. *)
Lemma X14_witness :
  let fields := [("phone", JStr "254700000000"); ("amount", JNum (Fin ten_point_four))] in
  let answer := [("ResponseCode", JStr "1")] in
  let out := stk_push decimal_toString no_numeric_string anonymous_gateway
               (push_request ten_point_four) empty_store in
  (req_body (push_request ten_point_four) = JObj fields
   ∧ truthy (get_opt (JObj fields) "phone") = true
   ∧ truthy (get_opt (JObj fields) "amount") = true
   ∧ submission_succeeds decimal_toString no_numeric_string anonymous_gateway
       (get_opt (JObj fields) "phone") (get_opt (JObj fields) "amount")
       (get_opt (JObj fields) "description") (JObj answer)
   ∧ truthy (get_opt (JObj answer) "CheckoutRequestID") = false)
  ∧ result out = Normal {| res_status := 200; res_body := Data (JObj answer) |}
  ∧ store_after out = empty_store.
Proof.
  assert (submission_succeeds decimal_toString no_numeric_string anonymous_gateway
            (JStr "254700000000") (JNum (Fin ten_point_four)) JUndef
            (JObj [("ResponseCode", JStr "1")])) as Hok.
  { exists (JStr "token"), (Fin 11), "token". repeat split; reflexivity. }
  split.
  - repeat split; try reflexivity. exact Hok.
  - apply (X14_accepted_push_without_identifier decimal_toString no_numeric_string
             anonymous_gateway (push_request ten_point_four) empty_store
             [("phone", JStr "254700000000"); ("amount", JNum (Fin ten_point_four))]
             [("ResponseCode", JStr "1")]);
      try reflexivity.
    exact Hok.
Defined.

(** A request without a body. *)
Lemma X15_witness :
  let out := stk_push decimal_toString no_numeric_string accepting_gateway
               (body_of JUndef) empty_store in
  (req_body (body_of JUndef) = JUndef ∨ req_body (body_of JUndef) = JNull)
  ∧ (∃ e, result out = Throw e)
  ∧ calls out = []
  ∧ store_after out = empty_store.
Proof.
  split.
  - left; reflexivity.
  - apply (X15_missing_body_throws decimal_toString no_numeric_string
             accepting_gateway (body_of JUndef) empty_store).
    left; reflexivity.
Defined.

(** A push of exactly 11. *)
Lemma X18_witness :
  let fields := [("phone", JStr "254700000000"); ("amount", JNum (Fin 11))] in
  (req_body (push_request 11) = JObj fields
   ∧ truthy (get_opt (JObj fields) "phone") = true
   ∧ get_own fields "amount" = Some (JNum (Fin 11))
   ∧ (11 == inject_Z 11)%Q
   ∧ 11%Z ≠ 0%Z)
  ∧ ∀ payload authorization,
      StkPushRequest payload authorization
      ∈ calls (stk_push decimal_toString no_numeric_string accepting_gateway
                 (push_request 11) empty_store) →
      get_opt payload "Amount" = JNum (Fin (inject_Z 11)).
Proof.
  split.
  - repeat split; try reflexivity. intros H; discriminate H.
  - apply (X18_whole_amount_unchanged decimal_toString no_numeric_string
             accepting_gateway (push_request 11) empty_store
             [("phone", JStr "254700000000"); ("amount", JNum (Fin 11))] 11 11);
      try reflexivity.
    intros H; discriminate H.
Defined.

(** The request [{ phone: "254700000000", amount: { toString: "x" } }]. *)
Lemma X19_witness :
  let props := [("toString", JStr "x")] in
  let fields := [("phone", JStr "254700000000"); ("amount", JObj props)] in
  (req_body (body_of (JObj fields)) = JObj fields
   ∧ truthy (get_opt (JObj fields) "phone") = true
   ∧ get_own fields "amount" = Some (JObj props)
   ∧ has_own props "toString" = true
   ∧ getAccessToken accepting_gateway = Normal (JStr "token"))
  ∧ stk_push decimal_toString no_numeric_string accepting_gateway
      (body_of (JObj fields)) empty_store
    = {| result :=
           Normal {| res_status := 500;
                     res_body := Data (JObj [("errorMessage", fallback_message)]) |};
         store_after := empty_store;
         calls := [OAuthRequest] |}.
Proof.
  split.
  - repeat split; reflexivity.
  - apply (X19_unconvertible_amount decimal_toString no_numeric_string
             accepting_gateway _ empty_store
             [("phone", JStr "254700000000"); ("amount", JObj [("toString", JStr "x")])]
             [("toString", JStr "x")] (JStr "token"));
      reflexivity.
Defined.

(** A push of 10.4 when the token endpoint gives no token. *)
Lemma X20_witness :
  let fields := [("phone", JStr "254700000000"); ("amount", JNum (Fin ten_point_four))] in
  (req_body (push_request ten_point_four) = JObj fields
   ∧ truthy (get_opt (JObj fields) "phone") = true
   ∧ get_own fields "amount" = Some (JNum (Fin ten_point_four))
   ∧ number_truthy (Fin ten_point_four) = true
   ∧ oauth_get tokenless_gateway = Normal (JObj [("expires_in", JStr "3599")])
   ∧ get_own [("expires_in", JStr "3599")] "access_token" = None)
  ∧ ∃ payload,
      calls (stk_push decimal_toString no_numeric_string tokenless_gateway
               (push_request ten_point_four) empty_store)
      = [OAuthRequest; StkPushRequest payload "Bearer undefined"].
Proof.
  split.
  - repeat split; reflexivity.
  - apply (X20_missing_token_still_pushed decimal_toString no_numeric_string
             tokenless_gateway (push_request ten_point_four) empty_store
             [("phone", JStr "254700000000"); ("amount", JNum (Fin ten_point_four))]
             [("expires_in", JStr "3599")] (Fin ten_point_four));
      reflexivity.
Defined.


(** Noon of 1 January 2024. *)
Lemma X22_witness :
  (is_iso_fields "2024" "01" "01" "12" "00" "00" "000" = true
   ∧ clock_digits accepting_gateway
     = timestamp_of_iso (iso_string "2024" "01" "01" "12" "00" "00" "000"))
  ∧ getTimestampAndPassword accepting_gateway
    = ("20240101120000", "174379passkey20240101120000").
Proof.
  split.
  - split; reflexivity.
  - apply (X22_timestamp_of_clock accepting_gateway
             "2024" "01" "01" "12" "00" "00" "000");
      reflexivity.
Defined.
